(** * Rainier CNI plugin: interface lifecycle and the container -> interface store

    A shallow embedding of the Go sources
      - src/unnamed/part_001  (the plugin with IPAM delegation), top level;
      - src/rainier.go        (the earlier plugin without IPAM), [Module RainierGo].

    Every call that leaves the repository (encoding/json, ioutil, the OVS
    client, the CNI ipam/ns/ip packages) is a field of the record [World]:
    the commands are then ordinary functions of the world, the arguments and
    the process state, and they log each outside call in a trace. *)

From Stdlib Require Import Strings.String Strings.Ascii Strings.Byte ZArith List.
From stdpp Require Import base strings list gmap sorting.

Local Open Scope string_scope.
Local Open Scope list_scope.

(** ** Go values *)

(** [[]byte] *)
Abbreviation bytes := (list Byte.byte).

(** A Go call returning [(T, error)]. *)
Inductive result (E A : Type) : Type :=
| Val (a : A)
| Fail (e : E).
Arguments Val {E A} a.
Arguments Fail {E A} e.

(** The dynamic values an [interface{}] of [hostInterfaces] can hold: what
    encoding/json stores when it decodes into [interface{}], and the [string]
    the commands assign. *)
#[warnings="-register-all"]
Inductive iface : Type :=
| INil
| IString (s : string)
| IBool (b : bool)
| IFloat64 (bits : N)
| ISlice (l : list iface)
| IMap (kvs : list (string * iface)).

(** [map[string]interface{}]; [None] is the nil map. *)
Abbreviation gomap := (option (gmap string iface)).

(** [m[k]]: the zero value (nil interface) when [k] is missing or [m] is nil. *)
Definition go_index (m : gomap) (k : string) : iface :=
  match m with
  | Some g => default INil (g !! k)
  | None => INil
  end.

(** [m[k] = v]: a run-time panic on the nil map. *)
Definition go_assign (m : gomap) (k : string) (v : iface) : option gomap :=
  match m with
  | Some g => Some (Some (<[k := v]> g))
  | None => None
  end.

(** [delete(m, k)]: a no-op on the nil map. *)
Definition go_delete (m : gomap) (k : string) : gomap :=
  match m with
  | Some g => Some (delete k g)
  | None => None
  end.

(** Error values.  [Errorf] keeps the format string of the source and its
    arguments; [LibError] is an error value handed back by a library call and
    returned to the caller unchanged, tagged with the call it came from. *)
Inductive origin : Type :=
| FromJSON | FromNS | FromSetupVeth | FromExecAdd | FromNewResult
| FromConfigureIface | FromPrintResult | FromExecDel.

Inductive error : Type :=
| LibError (o : origin) (msg : string)
| Errorf (format : string) (args : list string).

#[global] Instance origin_eq_dec : EqDecision origin.
Proof. solve_decision. Defined.
#[global] Instance error_eq_dec : EqDecision error.
Proof. solve_decision. Defined.

(** ** Library types (fields the plugin reads or writes) *)

Module types.
Record DNS := mkDNS {
  Nameservers : list string;
  Domain : string; Search : list string;
  Options : list string }.
Record IPAM := mkIPAM { Type_ : string }.
Record NetConf := mkNetConf {
  CNIVersion : string;
  Name : string;
  PluginType : string;
  ipam : IPAM;
  dns : DNS }.
(** [types.Result]: what the IPAM delegate printed, before conversion. *)
Record Result := mkResult { raw : bytes }.
End types.

Module skel.
Record CmdArgs := mkCmdArgs {
  ContainerID : string;
  Netns : string;
  IfName : string;
  Args : string;
  Path : string;
  StdinData : bytes }.
End skel.

Module ns.
Record NetNS := mkNetNS { Path : string }.
End ns.

Module net.
(** [HardwareAddr] is kept as the text [HardwareAddr.String()] renders. *)
Record Interface := mkInterface { Name : string; HardwareAddr : string }.
End net.

Module current.
Record Interface := mkInterface { Name : string; Mac : string; Sandbox : string }.
Record IPConfig := mkIPConfig {
  Version : string;
  Interface_ : option Z;          (* *int *)
  Address : string;
  Gateway : string }.
(** Slices of pointers: [None] is a nil pointer. *)
Record Result := mkResult {
  CNIVersion : string;
  Interfaces : list (option Interface);
  IPs : list (option IPConfig);
  Routes : list string;
  DNS : types.DNS }.
(** [current.Int] *)
Definition Int (v : Z) : option Z := Some v.
End current.

Record RainierConfig := mkRainierConfig {
  NetConf : types.NetConf;
  PublicBridgeName : string }.

Definition DefaultMTU : Z := 1500.
Definition HostInterfaceJson : string := "/tmp/rainier.json".

(** ** Process state and outside calls *)

Inductive event : Type :=
| EvAddBridge (bridge : string)
| EvAddPort (bridge port : string)
| EvDeletePort (bridge port : string)
| EvGetNS (path : string)
| EvNsDo (netns : ns.NetNS)
| EvNsClose (netns : ns.NetNS)
| EvSetupVeth (ifName : string) (mtu : Z) (hostNS : ns.NetNS)
| EvExecAdd (plugin : string) (stdin : bytes)
| EvExecDel (plugin : string) (stdin : bytes)
| EvConfigureIface (ifName : string) (r : current.Result)
| EvReadFile (path : string)
| EvWriteFile (path : string) (data : bytes) (perm : Z)
| EvPrintln (args : list string)
| EvPrintResult (r : current.Result) (version : string).

(** What [json.Unmarshal(data, &hostInterfaces)] makes of the file: an error
    before anything is stored (syntax error, or a top-level value that is no
    object), the literal [null], an object with its members in textual order,
    or an object whose members are stored although an error is reported in
    the end (a number that does not fit a float64). *)
Inductive decoded : Type :=
| DecError (msg : string)
| DecNull
| DecObject (kvs : list (string * iface))
| DecPartial (msg : string) (kvs : list (string * iface)).

Record World := mkWorld {
  json_Unmarshal_config : bytes -> result string RainierConfig;
  json_Unmarshal_map : bytes -> decoded;
  json_Marshal_map : gomap -> result string bytes;
  ovs_AddBridge : string -> option string;
  ovs_AddPort : string -> string -> option string;
  ovs_DeletePort : string -> string -> option string;
  ns_GetNS : string -> result string ns.NetNS;
  ns_hostNS : ns.NetNS;
  ns_Do_switch : ns.NetNS -> option string;
  ip_SetupVeth : string -> Z -> ns.NetNS -> result string (net.Interface * net.Interface);
  ipam_ExecAdd : string -> bytes -> result string types.Result;
  ipam_ExecDel : string -> bytes -> option string;
  current_NewResultFromResult : types.Result -> result string current.Result;
  ipam_ConfigureIface : string -> current.Result -> option string;
  (** [None]: written; [Some (msg, left)]: failed, the file is left as [left]. *)
  io_WriteFile : option bytes -> bytes -> option (string * option bytes);
  types_PrintResult : current.Result -> string -> option string }.

(** The package-level [hostInterfaces], the file at [HostInterfaceJson]
    ([None]: it cannot be read, e.g. it does not exist), and the outside calls
    made so far, oldest first. *)
Record state := mkState {
  hostInterfaces : gomap;
  file : option bytes;
  trace : list event }.

(** A process that has just started: [make(map[string]interface{})]. *)
Definition init (f : option bytes) : state :=
  {| hostInterfaces := Some ∅; file := f; trace := [] |}.

Inductive outcome (A : Type) : Type :=
| Ret (a : A)
| Panic (msg : string).
Arguments Ret {A} a.
Arguments Panic {A} msg.

Definition M (A : Type) : Type := state -> outcome A * state.

Definition ret {A} (a : A) : M A := fun st => (Ret a, st).
Definition panic {A} (msg : string) : M A := fun st => (Panic msg, st).
Definition bind {A B} (m : M A) (k : A -> M B) : M B :=
  fun st => match m st with
            | (Ret a, st') => k a st'
            | (Panic msg, st') => (Panic msg, st')
            end.

Notation "'let*' x ':=' m 'in' k" := (bind m (fun x => k))
  (at level 10, x pattern, m at level 100, k at level 200).
(** [if err := m; err != nil { return err }] *)
Notation "'check*' m 'in' k" :=
  (bind m (fun err => match err with Some e => ret (Some e) | None => k end))
  (at level 10, m at level 100, k at level 200).

Definition log (ev : event) : M unit :=
  fun st => (Ret tt, {| hostInterfaces := hostInterfaces st; file := file st;
                        trace := trace st ++ [ev] |}).

(** [defer d] around [body]: [d] runs when the function returns or panics. *)
Definition defer {A} (d : M unit) (body : M A) : M A :=
  fun st => match body st with
            | (r, st') => (r, snd (d st'))
            end.

(** ** The plugin (src/unnamed/part_001) *)

Section Plugin.
Variable W : World.

(** *** Outside calls: the world decides the outcome, the trace records the call *)

Definition VSwitch_AddBridge (bridge : string) : M (option string) :=
  let* _ := log (EvAddBridge bridge) in ret (ovs_AddBridge W bridge).

Definition VSwitch_AddPort (bridge port : string) : M (option string) :=
  let* _ := log (EvAddPort bridge port) in ret (ovs_AddPort W bridge port).

Definition VSwitch_DeletePort (bridge port : string) : M (option string) :=
  let* _ := log (EvDeletePort bridge port) in ret (ovs_DeletePort W bridge port).

Definition fmt_Println (args : list string) : M unit := log (EvPrintln args).

Definition ns_GetNS_call (path : string) : M (result string ns.NetNS) :=
  let* _ := log (EvGetNS path) in ret (ns_GetNS W path).

Definition NetNS_Close (netns : ns.NetNS) : M unit := log (EvNsClose netns).

(** [netns.Do(f)]: switch into [netns] and run [f] with the host namespace;
    [f] is a closure over the locals [l], which it may update.  When the
    switch fails [f] does not run. *)
Definition NetNS_Do {L} (netns : ns.NetNS) (l : L)
    (f : ns.NetNS -> L -> M (option error * L)) : M (option error * L) :=
  let* _ := log (EvNsDo netns) in
  match ns_Do_switch W netns with
  | Some e => ret (Some (LibError FromNS e), l)
  | None => f (ns_hostNS W) l
  end.

Definition ip_SetupVeth_call (ifName : string) (mtu : Z) (hostNS : ns.NetNS)
    : M (result string (net.Interface * net.Interface)) :=
  let* _ := log (EvSetupVeth ifName mtu hostNS) in ret (ip_SetupVeth W ifName mtu hostNS).

Definition ipam_ExecAdd_call (plugin : string) (stdin : bytes) : M (result string types.Result) :=
  let* _ := log (EvExecAdd plugin stdin) in ret (ipam_ExecAdd W plugin stdin).

Definition ipam_ExecDel_call (plugin : string) (stdin : bytes) : M (option string) :=
  let* _ := log (EvExecDel plugin stdin) in ret (ipam_ExecDel W plugin stdin).

Definition ipam_ConfigureIface_call (ifName : string) (r : current.Result) : M (option string) :=
  let* _ := log (EvConfigureIface ifName r) in ret (ipam_ConfigureIface W ifName r).

Definition types_PrintResult_call (r : current.Result) (version : string) : M (option string) :=
  let* _ := log (EvPrintResult r version) in ret (types_PrintResult W r version).

Definition ioutil_ReadFile (path : string) : M (result string bytes) :=
  fun st => match file st with
            | Some data => (Ret (Val data), snd (log (EvReadFile path) st))
            | None => (Ret (Fail "open: no such file or directory"), snd (log (EvReadFile path) st))
            end.

Definition ioutil_WriteFile (path : string) (data : bytes) (perm : Z) : M (option string) :=
  fun st =>
    let tr := trace st ++ [EvWriteFile path data perm] in
    match io_WriteFile W (file st) data with
    | None => (Ret None, {| hostInterfaces := hostInterfaces st; file := Some data; trace := tr |})
    | Some (msg, rest) =>
        (Ret (Some msg), {| hostInterfaces := hostInterfaces st; file := rest; trace := tr |})
    end.

(** [json.Unmarshal(data, &hostInterfaces)]: an object is decoded member by
    member into the existing map (a new one if it is nil), a later member
    replacing an earlier one with the same key; [null] sets the map to nil;
    on a syntax error the map is left as it was; an error found while the
    members are stored does not undo them. *)
Definition json_Unmarshal_hostInterfaces (data : bytes) : M (option string) :=
  fun st =>
    match json_Unmarshal_map W data with
    | DecError msg => (Ret (Some msg), st)
    | DecNull => (Ret None, {| hostInterfaces := None; file := file st; trace := trace st |})
    | DecObject kvs =>
        let g := foldl (fun g kv => <[kv.1 := kv.2]> g) (default ∅ (hostInterfaces st)) kvs in
        (Ret None, {| hostInterfaces := Some g; file := file st; trace := trace st |})
    | DecPartial msg kvs =>
        let g := foldl (fun g kv => <[kv.1 := kv.2]> g) (default ∅ (hostInterfaces st)) kvs in
        (Ret (Some msg), {| hostInterfaces := Some g; file := file st; trace := trace st |})
    end.

Definition json_Marshal_hostInterfaces : M (result string bytes) :=
  fun st => (Ret (json_Marshal_map W (hostInterfaces st)), st).

(** [hostInterfaces[k]] *)
Definition hostInterfaces_index (k : string) : M iface :=
  fun st => (Ret (go_index (hostInterfaces st) k), st).

(** [hostInterfaces[k] = v] *)
Definition hostInterfaces_assign (k : string) (v : iface) : M unit :=
  fun st => match go_assign (hostInterfaces st) k v with
            | Some m => (Ret tt, {| hostInterfaces := m; file := file st; trace := trace st |})
            | None => (Panic "assignment to entry in nil map", st)
            end.

(** [delete(hostInterfaces, k)] *)
Definition hostInterfaces_delete (k : string) : M unit :=
  fun st => (Ret tt, {| hostInterfaces := go_delete (hostInterfaces st) k;
                        file := file st; trace := trace st |}).

(** [v.(string)] *)
Definition assert_string (v : iface) : M string :=
  match v with
  | IString s => ret s
  | _ => panic "interface conversion: interface {} is not string"
  end.

(** *** The functions of the source *)

Definition emptyInterface : current.Interface :=
  {| current.Name := EmptyString; current.Mac := EmptyString; current.Sandbox := EmptyString |}.

(** [createVeth]: the closure fills [contIface] and [hostIface]. *)
Definition createVeth (netns : ns.NetNS) (ifName : string)
    : M (result error (current.Interface * current.Interface)) :=
  let contIface := emptyInterface in
  let hostIface := emptyInterface in
  let* (err, (contIface, hostIface)) :=
    NetNS_Do netns (contIface, hostIface) (fun hostNS '(contIface, hostIface) =>
      let* r := ip_SetupVeth_call ifName DefaultMTU hostNS in
      match r with
      | Fail e => ret (Some (LibError FromSetupVeth e), (contIface, hostIface))
      | Val (hostVeth, containerVeth) =>
          let contIface :=
            {| current.Name := net.Name containerVeth;
               current.Mac := net.HardwareAddr containerVeth;
               current.Sandbox := ns.Path netns |} in
          let hostIface :=
            {| current.Name := net.Name hostVeth;
               current.Mac := current.Mac hostIface;
               current.Sandbox := current.Sandbox hostIface |} in
          ret (None, (contIface, hostIface))
      end) in
  match err with
  | Some e => ret (Fail e)
  | None => ret (Val (hostIface, contIface))
  end.

Definition createOvsBr (bridgeName : string) : M (option error) :=
  let* err := VSwitch_AddBridge bridgeName in
  match err with
  | Some e => ret (Some (Errorf "Failed to add bridge %s. Error = %s" [bridgeName; e]))
  | None => ret None
  end.

Definition addOvsPort (bridgeName hostIfName : string) : M (option error) :=
  let* err := VSwitch_AddPort bridgeName hostIfName in
  match err with
  | Some e => ret (Some (Errorf "Failed to add port %s to bridge %s. Error = %s"
                                [hostIfName; bridgeName; e]))
  | None => ret None
  end.

Definition deleteOvsPort (bridgeName hostIfName : string) : M (option error) :=
  let* err := VSwitch_DeletePort bridgeName hostIfName in
  match err with
  | Some e =>
      let* _ := fmt_Println ["%s %s"; bridgeName; hostIfName] in
      ret (Some (Errorf "Failed to delete port %s from bridge %s. Error = %s"
                        [hostIfName; bridgeName; e]))
  | None => ret None
  end.

Definition readHostInterfacesFromFile : M (option error) :=
  let* r := ioutil_ReadFile HostInterfaceJson in
  match r with
  | Val jsonByte =>
      let* err := json_Unmarshal_hostInterfaces jsonByte in
      match err with
      | Some _ => ret (Some (Errorf "Fail to decode host interface JSON" []))
      | None => ret None
      end
  | Fail _ => ret None
  end.

Definition writeHostInterfacesToFile : M (option error) :=
  let* r := json_Marshal_hostInterfaces in
  match r with
  | Fail _ => ret (Some (Errorf "Fail to encode host interface JSON" []))
  | Val jsonByte =>
      let* err := ioutil_WriteFile HostInterfaceJson jsonByte 420 (* 0644 *) in
      match err with
      | Some _ => ret (Some (Errorf "Fail to write host interface JSON" []))
      | None => ret None
      end
  end.

(** [for _, ip := range result.IPs { ip.Interface = current.Int(0) }]:
    each element is a pointer, the assignment goes through it and panics on
    a nil one. *)
Fixpoint associate_IPs (ips : list (option current.IPConfig))
    : option (list (option current.IPConfig)) :=
  match ips with
  | [] => Some []
  | None :: _ => None
  | Some ip :: rest =>
      match associate_IPs rest with
      | Some rest' =>
          Some (Some {| current.Version := current.Version ip;
                        current.Interface_ := current.Int 0;
                        current.Address := current.Address ip;
                        current.Gateway := current.Gateway ip |} :: rest')
      | None => None
      end
  end.

Definition cmdAdd (args : skel.CmdArgs) : M (option error) :=
  match json_Unmarshal_config W (skel.StdinData args) with
  | Fail e => ret (Some (LibError FromJSON e))
  | Val config =>
  (* Create OVS bridges *)
  check* createOvsBr (PublicBridgeName config) in
  (* Get name space *)
  let* r := ns_GetNS_call (skel.Netns args) in
  match r with
  | Fail e => ret (Some (Errorf "failed to open netns %q: %v" [skel.Netns args; e]))
  | Val netns =>
  defer (NetNS_Close netns) (
  (* Create veth *)
  let* r := createVeth netns (skel.IfName args) in
  match r with
  | Fail e => ret (Some e)
  | Val (hostInterface, containerInterface) =>
  (* Add port to OVS *)
  check* addOvsPort (PublicBridgeName config) (current.Name hostInterface) in
  (* Invoke IPAM *)
  let* r := ipam_ExecAdd_call (types.Type_ (types.ipam (NetConf config))) (skel.StdinData args) in
  match r with
  | Fail e => ret (Some (LibError FromExecAdd e))
  | Val r =>
  (* Convert IPAM result to current Result type *)
  match current_NewResultFromResult W r with
  | Fail e => ret (Some (LibError FromNewResult e))
  | Val result =>
  if (length (current.IPs result) =? 0)%nat
  then ret (Some (Errorf "IPAM plugin returns no IP address" []))
  else
  (* Associate all IPs to the first interface *)
  match associate_IPs (current.IPs result) with
  | None => panic "invalid memory address or nil pointer dereference"
  | Some ips =>
  (* Set interface in result *)
  let result :=
    {| current.CNIVersion := current.CNIVersion result;
       current.Interfaces := [Some containerInterface];
       current.IPs := ips;
       current.Routes := current.Routes result;
       current.DNS := current.DNS result |} in
  (* Apply IP address to the container interface *)
  let* (err, _) := NetNS_Do netns tt (fun _ _ =>
    let* err := ipam_ConfigureIface_call (current.Name containerInterface) result in
    match err with
    | Some e => ret (Some (LibError FromConfigureIface e), tt)
    | None => ret (None, tt)
    end) in
  match err with
  | Some e => ret (Some e)
  | None =>
  (* Set DNS in result *)
  let result :=
    {| current.CNIVersion := current.CNIVersion result;
       current.Interfaces := current.Interfaces result;
       current.IPs := current.IPs result;
       current.Routes := current.Routes result;
       current.DNS := types.dns (NetConf config) |} in
  (* Update JSON file *)
  let* _ := readHostInterfacesFromFile in
  let* _ := hostInterfaces_assign (skel.ContainerID args) (IString (current.Name hostInterface)) in
  let* _ := writeHostInterfacesToFile in
  let* err := types_PrintResult_call result (types.CNIVersion (NetConf config)) in
  match err with
  | Some e => ret (Some (LibError FromPrintResult e))
  | None => ret None
  end
  end end end end end) end end.

Definition cmdDel (args : skel.CmdArgs) : M (option error) :=
  match json_Unmarshal_config W (skel.StdinData args) with
  | Fail e => ret (Some (LibError FromJSON e))
  | Val config =>
  let* err := ipam_ExecDel_call (types.Type_ (types.ipam (NetConf config))) (skel.StdinData args) in
  match err with
  | Some e => ret (Some (LibError FromExecDel e))
  | None =>
  (* Update JSON file and remove port from OVS *)
  let* _ := readHostInterfacesFromFile in
  let* hostIfName := hostInterfaces_index (skel.ContainerID args) in
  match hostIfName with
  | INil => ret None
  | _ =>
      let* name := assert_string hostIfName in
      check* deleteOvsPort (PublicBridgeName config) name in
      let* _ := hostInterfaces_delete (skel.ContainerID args) in
      let* _ := writeHostInterfacesToFile in
      ret None
  end
  end end.

Definition cmdGet (args : skel.CmdArgs) : M (option error) :=
  ret (Some (Errorf "cmdGet is not implemented" [])).

End Plugin.

(** ** The earlier plugin (src/rainier.go)

    No IPAM delegation.  [createVeth], [createOvsBr], [addOvsPort],
    [deleteOvsPort], [readHostInterfacesFromFile] and
    [writeHostInterfacesToFile] have the same text in both files (the path
    constant is called [HostInterfacesFilePath] here and has the same value),
    so the definitions above are used for both. *)

Module RainierGo.
Section Plugin.
Variable W : World.

Definition HostInterfacesFilePath : string := HostInterfaceJson.

Definition cmdAdd (args : skel.CmdArgs) : M (option error) :=
  match json_Unmarshal_config W (skel.StdinData args) with
  | Fail e => ret (Some (LibError FromJSON e))
  | Val config =>
  (* Create OVS bridges *)
  check* createOvsBr W (PublicBridgeName config) in
  (* Get name space *)
  let* r := ns_GetNS_call W (skel.Netns args) in
  match r with
  | Fail e => ret (Some (Errorf "failed to open netns %q: %v" [skel.Netns args; e]))
  | Val netns =>
  defer (NetNS_Close netns) (
  (* Create veth *)
  let* r := createVeth W netns (skel.IfName args) in
  match r with
  | Fail e => ret (Some e)
  | Val (hostInterface, _) =>
  (* Add port to OVS *)
  check* addOvsPort W (PublicBridgeName config) (current.Name hostInterface) in
  (* Update JSON file *)
  let* _ := readHostInterfacesFromFile W in
  let* _ := hostInterfaces_assign (skel.ContainerID args) (IString (current.Name hostInterface)) in
  let* _ := writeHostInterfacesToFile W in
  ret None
  end) end end.

Definition cmdDel (args : skel.CmdArgs) : M (option error) :=
  match json_Unmarshal_config W (skel.StdinData args) with
  | Fail e => ret (Some (LibError FromJSON e))
  | Val config =>
  (* Update JSON file and remove port from OVS *)
  let* _ := readHostInterfacesFromFile W in
  let* v := hostInterfaces_index (skel.ContainerID args) in
  let* hostIfName := assert_string v in
  check* deleteOvsPort W (PublicBridgeName config) hostIfName in
  let* _ := hostInterfaces_delete (skel.ContainerID args) in
  let* _ := writeHostInterfacesToFile W in
  ret None
  end.

Definition cmdGet (args : skel.CmdArgs) : M (option error) :=
  ret (Some (Errorf "cmdGet is not implemented" [])).

End Plugin.
End RainierGo.

(** ** A reference world for evaluating the commands

    JSON text restricted to what the state file holds in the scenarios below:
    one flat object whose members are strings without escapes, printed with
    sorted keys and no white space, as encoding/json prints a
    [map[string]interface{}] of such strings. *)

Module Ref.

Definition bs (s : string) : bytes := list_byte_of_string s.

Definition quote : bytes := [Byte.x22].
Definition jstr (s : string) : bytes := quote ++ bs s ++ quote.
Definition jmember (k : string) (v : bytes) : bytes := jstr k ++ bs ":" ++ v.

Fixpoint jjoin (ms : list bytes) : bytes :=
  match ms with
  | [] => []
  | [m] => m
  | m :: rest => m ++ bs "," ++ jjoin rest
  end.

Definition jobject (ms : list bytes) : bytes := bs "{" ++ jjoin ms ++ bs "}".

Definition key_le (a b : string * iface) : Prop := String.leb a.1 b.1 = true.
#[global] Instance key_le_dec : RelDecision key_le.
Proof. intros a b. unfold key_le. apply _. Defined.

Fixpoint plain_members (kvs : list (string * iface)) : option (list bytes) :=
  match kvs with
  | [] => Some []
  | (k, IString v) :: rest =>
      match plain_members rest with
      | Some ms => Some (jmember k (jstr v) :: ms)
      | None => None
      end
  | _ => None
  end.

Definition Marshal (m : gomap) : result string bytes :=
  match m with
  | None => Val (bs "null")
  | Some g =>
      match plain_members (merge_sort key_le (map_to_list g)) with
      | Some ms => Val (jobject ms)
      | None => Fail "json: unsupported value"
      end
  end.

Inductive pstate : Type :=
| PStart | PFirst | PNext
| PKey (k : bytes)
| PColon (k : bytes)
| POpenVal (k : bytes)
| PVal (k v : bytes)
| PAfter | PDone | PBad.

Definition pstep (acc : list (string * iface) * pstate) (c : Byte.byte)
    : list (string * iface) * pstate :=
  let '(kvs, s) := acc in
  match s with
  | PStart => (kvs, if Byte.eqb c Byte.x7b then PFirst else PBad)
  | PFirst => (kvs, if Byte.eqb c Byte.x22 then PKey []
                    else if Byte.eqb c Byte.x7d then PDone else PBad)
  | PNext => (kvs, if Byte.eqb c Byte.x22 then PKey [] else PBad)
  | PKey k => (kvs, if Byte.eqb c Byte.x22 then PColon k
                    else if Byte.eqb c Byte.x5c then PBad else PKey (k ++ [c]))
  | PColon k => (kvs, if Byte.eqb c Byte.x3a then POpenVal k else PBad)
  | POpenVal k => (kvs, if Byte.eqb c Byte.x22 then PVal k [] else PBad)
  | PVal k v =>
      if Byte.eqb c Byte.x22
      then (kvs ++ [(string_of_list_byte k, IString (string_of_list_byte v))], PAfter)
      else (kvs, if Byte.eqb c Byte.x5c then PBad else PVal k (v ++ [c]))
  | PAfter => (kvs, if Byte.eqb c Byte.x2c then PNext
                    else if Byte.eqb c Byte.x7d then PDone else PBad)
  | PDone => (kvs, PBad)
  | PBad => (kvs, PBad)
  end.

Fixpoint bytes_eqb (a b : bytes) : bool :=
  match a, b with
  | [], [] => true
  | x :: a', y :: b' => Byte.eqb x y && bytes_eqb a' b'
  | _, _ => false
  end.

Definition Unmarshal (data : bytes) : decoded :=
  if bytes_eqb data (bs "null") then DecNull
  else match foldl pstep ([], PStart) data with
       | (kvs, PDone) => DecObject kvs
       | _ => DecError "invalid character"
       end.

(** Outside calls that can be made to fail in a scenario. *)
Inductive fault : Type :=
| BadAddBridge | BadGetNS | BadNsDo | BadSetupVeth | BadAddPort | BadExecAdd
| BadNewResult | NoIPs | BadConfigureIface | BadWriteFile | BadPrintResult
| BadExecDel | BadDeletePort.

#[global] Instance fault_eq_dec : EqDecision fault.
Proof. solve_decision. Defined.

Definition has (f : fault) (fs : list fault) : bool := bool_decide (f ∈ fs).

Definition failing (f : fault) (fs : list fault) (msg : string) : option string :=
  if has f fs then Some msg else None.

(** Two configuration payloads: with and without [publicBridgeName]. *)
Definition conf_common : list bytes :=
  [ jmember "cniVersion" (jstr "0.3.1");
    jmember "name" (jstr "rainier");
    jmember "type" (jstr "rainier");
    jmember "ipam" (jobject [jmember "type" (jstr "host-local")]);
    jmember "dns" (jobject [jmember "domain" (jstr "cluster.local")]) ].

Definition conf_br0 : bytes := jobject (conf_common ++ [jmember "publicBridgeName" (jstr "br0")]).
Definition conf_nobridge : bytes := jobject conf_common.

Definition dns0 : types.DNS :=
  {| types.Nameservers := []; types.Domain := "cluster.local";
     types.Search := []; types.Options := [] |}.

Definition netconf0 : types.NetConf :=
  {| types.CNIVersion := "0.3.1"; types.Name := "rainier"; types.PluginType := "rainier";
     types.ipam := {| types.Type_ := "host-local" |}; types.dns := dns0 |}.

(** A member that is missing from the payload leaves its field at the zero
    value: [PublicBridgeName] is the empty string for [conf_nobridge]. *)
Definition Unmarshal_config (data : bytes) : result string RainierConfig :=
  if bytes_eqb data conf_br0
  then Val {| NetConf := netconf0; PublicBridgeName := "br0" |}
  else if bytes_eqb data conf_nobridge
  then Val {| NetConf := netconf0; PublicBridgeName := EmptyString |}
  else Fail "invalid character".

Definition nodns : types.DNS :=
  {| types.Nameservers := []; types.Domain := EmptyString; types.Search := []; types.Options := [] |}.

Definition ip0 : current.IPConfig :=
  {| current.Version := "4"; current.Interface_ := None;
     current.Address := "10.0.0.2/24"; current.Gateway := "10.0.0.1" |}.

Definition world (fs : list fault) : World :=
  {| json_Unmarshal_config := Unmarshal_config;
     json_Unmarshal_map := Unmarshal;
     json_Marshal_map := Marshal;
     ovs_AddBridge := fun _ => failing BadAddBridge fs "ovs-vsctl: permission denied";
     ovs_AddPort := fun _ _ => failing BadAddPort fs "ovs-vsctl: no bridge";
     ovs_DeletePort := fun _ _ => failing BadDeletePort fs "ovs-vsctl: no port";
     ns_GetNS := fun path =>
       if has BadGetNS fs then Fail "no such file or directory"
       else Val {| ns.Path := path |};
     ns_hostNS := {| ns.Path := "/proc/self/ns/net" |};
     ns_Do_switch := fun _ => failing BadNsDo fs "setns: operation not permitted";
     ip_SetupVeth := fun ifName _ _ =>
       if has BadSetupVeth fs then Fail "file exists"
       else Val ({| net.Name := "veth1f3a"; net.HardwareAddr := EmptyString |},
                 {| net.Name := ifName; net.HardwareAddr := "0a:58:0a:00:00:02" |});
     ipam_ExecAdd := fun _ _ =>
       if has BadExecAdd fs then Fail "no addresses available"
       else Val {| types.raw := bs "ipam-result" |};
     ipam_ExecDel := fun _ _ => failing BadExecDel fs "ipam: release failed";
     current_NewResultFromResult := fun _ =>
       if has BadNewResult fs then Fail "unsupported version"
       else Val {| current.CNIVersion := "0.3.1"; current.Interfaces := [];
                   current.IPs := if has NoIPs fs then [] else [Some ip0];
                   current.Routes := []; current.DNS := nodns |};
     ipam_ConfigureIface := fun _ _ => failing BadConfigureIface fs "link not found";
     io_WriteFile := fun old _ =>
       if has BadWriteFile fs then Some ("no space left on device", old) else None;
     types_PrintResult := fun _ _ => failing BadPrintResult fs "broken pipe" |}.

Definition args (id : string) (stdin : bytes) : skel.CmdArgs :=
  {| skel.ContainerID := id; skel.Netns := "/var/run/netns/" ++ id; skel.IfName := "eth0";
     skel.Args := EmptyString; skel.Path := "/opt/cni/bin"; skel.StdinData := stdin |}.

(** The state file holding the single entry [k -> v]. *)
Definition file1 (k v : string) : bytes := jobject [jmember k (jstr v)].

End Ref.

(** ** encoding/json on the state file

    The state file is written by [json.Marshal] and read by [json.Unmarshal]
    of the Go standard library.  This is their behaviour on what the plugin
    stores, a [map[string]interface{}] whose values are strings: the encoder
    in full, the decoder on the texts of that shape (one flat object of
    string members, no white space; [\u] escapes outside the surrogate
    range).  On anything else the two functions are left to the world they
    extend.  The encoder is the one of the Go releases of the plugin's time;
    later releases write two of the control characters with a shorter
    escape, which the decoder reads as the same character. *)

Module GoJSON.

Definition code (b : Byte.byte) : N := Byte.to_N b.
Definition byte_is (c : N) (b : Byte.byte) : bool := (code b =? c)%N.
Definition between (lo hi : N) (b : Byte.byte) : bool :=
  ((lo <=? code b) && (code b <=? hi))%N.

(** *** unicode/utf8 *)

Definition RuneSelf : N := 0x80%N.

(** The length of the sequence a leading byte announces; 0 for a byte that
    starts none. *)
Definition first (b0 : Byte.byte) : nat :=
  if between 0xC2 0xDF b0 then 2
  else if between 0xE0 0xEF b0 then 3
  else if between 0xF0 0xF4 b0 then 4
  else 0.

(** The second byte a leading byte accepts: no overlong forms, no
    surrogates, nothing above U+10FFFF. *)
Definition accept (b0 b1 : Byte.byte) : bool :=
  between (if byte_is 0xE0 b0 then 0xA0 else if byte_is 0xF0 b0 then 0x90 else 0x80)
          (if byte_is 0xED b0 then 0x9F else if byte_is 0xF4 b0 then 0x8F else 0xBF) b1.

Definition cont (b : Byte.byte) : bool := between 0x80 0xBF b.

(** [utf8.Valid]. *)
Fixpoint Valid (s : bytes) : bool :=
  match s with
  | [] => true
  | b0 :: r0 =>
      if (code b0 <? RuneSelf)%N then Valid r0
      else
        match first b0, r0 with
        | 2, b1 :: r1 => accept b0 b1 && Valid r1
        | 3, b1 :: b2 :: r2 => accept b0 b1 && cont b2 && Valid r2
        | 4, b1 :: b2 :: b3 :: r3 => accept b0 b1 && cont b2 && cont b3 && Valid r3
        | _, _ => false
        end
  end.

Definition ValidString (s : string) : bool := Valid (Ref.bs s).

Definition byte_of (n : N) : Byte.byte := default Byte.x00 (Byte.of_N n).

(** [utf8.EncodeRune], for a rune of the basic plane that is no surrogate. *)
Definition EncodeRune (r : N) : bytes :=
  if (r <? 0x80)%N then [byte_of r]
  else if (r <? 0x800)%N
  then [byte_of (0xC0 + N.shiftr r 6); byte_of (0x80 + N.land r 0x3F)]
  else [byte_of (0xE0 + N.shiftr r 12);
        byte_of (0x80 + N.land (N.shiftr r 6) 0x3F);
        byte_of (0x80 + N.land r 0x3F)].

(** U+FFFD, in UTF-8. *)
Definition RuneError : bytes := [Byte.xef; Byte.xbf; Byte.xbd].

(** *** The encoder *)

(** [htmlSafeSet]: the ASCII characters written as they are. *)
Definition htmlSafe (b : Byte.byte) : bool :=
  between 0x20 0x7F b &&
  negb (byte_is 0x22 b || byte_is 0x26 b || byte_is 0x3C b || byte_is 0x3E b || byte_is 0x5C b).

Definition hex (n : N) : Byte.byte :=
  nth (N.to_nat n) (Ref.bs "0123456789abcdef") Byte.x30.

(** An ASCII character in a string literal. *)
Definition escape (b : Byte.byte) : bytes :=
  if htmlSafe b then [b]
  else if byte_is 0x5C b || byte_is 0x22 b then [Byte.x5c; b]
  else if byte_is 0x0A b then Ref.bs "\n"
  else if byte_is 0x0D b then Ref.bs "\r"
  else if byte_is 0x09 b then Ref.bs "\t"
  else Ref.bs "\u00" ++ [hex (N.shiftr (code b) 4); hex (N.land (code b) 0xF)].

(** The escape written for a byte that is no UTF-8. *)
Definition replacement : bytes := Ref.bs "\ufffd".

(** U+2028 and U+2029, in UTF-8. *)
Definition line_separator (b0 b1 b2 : Byte.byte) : bool :=
  byte_is 0xE2 b0 && byte_is 0x80 b1 && (byte_is 0xA8 b2 || byte_is 0xA9 b2).

(** [encodeState.string] with [escapeHTML], between the quotes: ASCII through
    [escape]; a well-formed sequence as it is, U+2028 and U+2029 apart; any
    other byte as the escape of U+FFFD. *)
Fixpoint string_body (s : bytes) : bytes :=
  match s with
  | [] => []
  | b0 :: r0 =>
      if (code b0 <? RuneSelf)%N then escape b0 ++ string_body r0
      else
        match first b0, r0 with
        | 2, b1 :: r1 =>
            if accept b0 b1 then b0 :: b1 :: string_body r1
            else replacement ++ string_body r0
        | 3, b1 :: b2 :: r2 =>
            if accept b0 b1 && cont b2
            then (if line_separator b0 b1 b2
                  then Ref.bs "\u202" ++ [hex (N.land (code b2) 0xF)]
                  else [b0; b1; b2]) ++ string_body r2
            else replacement ++ string_body r0
        | 4, b1 :: b2 :: b3 :: r3 =>
            if accept b0 b1 && cont b2 && cont b3
            then b0 :: b1 :: b2 :: b3 :: string_body r3
            else replacement ++ string_body r0
        | _, _ => replacement ++ string_body r0
        end
  end.

Definition string_literal (s : string) : bytes :=
  Ref.quote ++ string_body (Ref.bs s) ++ Ref.quote.

(** The members of a map whose values are all strings. *)
Fixpoint members_text (kvs : list (string * iface)) : option (list bytes) :=
  match kvs with
  | [] => Some []
  | (k, IString v) :: rest =>
      match members_text rest with
      | Some ms => Some ((string_literal k ++ Ref.bs ":" ++ string_literal v) :: ms)
      | None => None
      end
  | _ => None
  end.

(** [json.Marshal(hostInterfaces)]: [null] for the nil map, else the members
    in the order of their keys. *)
Definition Marshal (other : gomap -> result string bytes) (m : gomap) : result string bytes :=
  match m with
  | None => Val (Ref.bs "null")
  | Some g =>
      match members_text (merge_sort Ref.key_le (map_to_list g)) with
      | Some ms => Val (Ref.jobject ms)
      | None => other m
      end
  end.

(** *** The decoder *)

Inductive token : Type :=
| TOpen | TClose | TColon | TComma
| TString (body : bytes).

Definition push (c : Byte.byte) (r : option (list token)) : option (list token) :=
  match r with
  | Some (TString body :: ts) => Some (TString (c :: body) :: ts)
  | _ => None
  end.

(** The scanner: where the string literals end.  Inside a literal a
    backslash takes the next byte with it. *)
Fixpoint scan (inside : bool) (s : bytes) : option (list token) :=
  match s with
  | [] => if inside then None else Some []
  | c :: r =>
      if inside then
        if byte_is 0x22 c then cons (TString []) <$> scan false r
        else if byte_is 0x5C c then
          match r with
          | e :: r1 => push c (push e (scan true r1))
          | [] => None
          end
        else push c (scan true r)
      else if byte_is 0x22 c then scan true r
      else if byte_is 0x7B c then cons TOpen <$> scan false r
      else if byte_is 0x7D c then cons TClose <$> scan false r
      else if byte_is 0x3A c then cons TColon <$> scan false r
      else if byte_is 0x2C c then cons TComma <$> scan false r
      else None
  end.

Definition hexval (c : Byte.byte) : option N :=
  if between 0x30 0x39 c then Some (code c - 0x30)%N
  else if between 0x61 0x66 c then Some (code c - 0x61 + 10)%N
  else if between 0x41 0x46 c then Some (code c - 0x41 + 10)%N
  else None.

(** [getu4]: the rune of the four hexadecimal digits after [\u]. *)
Definition getu4 (h1 h2 h3 h4 : Byte.byte) : option N :=
  match hexval h1, hexval h2, hexval h3, hexval h4 with
  | Some a, Some b, Some c, Some d => Some (((a * 16 + b) * 16 + c) * 16 + d)%N
  | _, _, _, _ => None
  end.

Definition IsSurrogate (r : N) : bool := ((0xD800 <=? r) && (r <? 0xE000))%N.

(** The character a one-letter escape stands for. *)
Definition unescape (e : Byte.byte) : option Byte.byte :=
  if byte_is 0x22 e || byte_is 0x5C e || byte_is 0x2F e then Some e
  else if byte_is 0x62 e then Some Byte.x08
  else if byte_is 0x66 e then Some Byte.x0c
  else if byte_is 0x6E e then Some Byte.x0a
  else if byte_is 0x72 e then Some Byte.x0d
  else if byte_is 0x74 e then Some Byte.x09
  else None.

(** [unquoteBytes], on what is between the quotes: escapes are replaced, a
    well-formed sequence is kept, any other byte of a sequence becomes
    U+FFFD.  [None] for what is no string literal and for an escaped
    surrogate. *)
Fixpoint unquote (s : bytes) : option bytes :=
  match s with
  | [] => Some []
  | c :: r =>
      if byte_is 0x5C c then
        match r with
        | [] => None
        | e :: r1 =>
            if byte_is 0x75 e then
              match r1 with
              | h1 :: h2 :: h3 :: h4 :: r5 =>
                  match getu4 h1 h2 h3 h4 with
                  | Some rr =>
                      if IsSurrogate rr then None
                      else app (EncodeRune rr) <$> unquote r5
                  | None => None
                  end
              | _ => None
              end
            else
              match unescape e with
              | Some b => cons b <$> unquote r1
              | None => None
              end
        end
      else if byte_is 0x22 c || (code c <? 0x20)%N then None
      else if (code c <? RuneSelf)%N then cons c <$> unquote r
      else
        match first c, r with
        | 2, b1 :: r1 =>
            if accept c b1 then app [c; b1] <$> unquote r1
            else app RuneError <$> unquote r
        | 3, b1 :: b2 :: r2 =>
            if accept c b1 && cont b2 then app [c; b1; b2] <$> unquote r2
            else app RuneError <$> unquote r
        | 4, b1 :: b2 :: b3 :: r3 =>
            if accept c b1 && cont b2 && cont b3 then app [c; b1; b2; b3] <$> unquote r3
            else app RuneError <$> unquote r
        | _, _ => app RuneError <$> unquote r
        end
  end.

(** The members of an object, after its opening brace. *)
Fixpoint members (ts : list token) : option (list (string * iface)) :=
  match ts with
  | TString k :: TColon :: TString v :: rest =>
      match unquote k, unquote v with
      | Some k', Some v' =>
          let kv := (string_of_list_byte k', IString (string_of_list_byte v')) in
          match rest with
          | [TClose] => Some [kv]
          | TComma :: rest' => cons kv <$> members rest'
          | _ => None
          end
      | _, _ => None
      end
  | _ => None
  end.

Definition object (ts : list token) : option (list (string * iface)) :=
  match ts with
  | [TOpen; TClose] => Some []
  | TOpen :: rest => members rest
  | _ => None
  end.

(** [json.Unmarshal(data, &hostInterfaces)]. *)
Definition Unmarshal (other : bytes -> decoded) (data : bytes) : decoded :=
  if Ref.bytes_eqb data (Ref.bs "null") then DecNull
  else match scan false data ≫= object with
       | Some kvs => DecObject kvs
       | None => other data
       end.

(** Members that are strings of well-formed UTF-8. *)
Definition utf8_member (kv : string * iface) : Prop :=
  ∃ v, kv.2 = IString v ∧ ValidString kv.1 = true ∧ ValidString v = true.

(** A store all of whose identifiers and interface names are well-formed
    UTF-8. *)
Definition ValidStore (m : gmap string string) : bool :=
  forallb (fun kv => ValidString kv.1 && ValidString kv.2) (map_to_list m).

(** [base] with encoding/json as above. *)
Definition world (base : World) : World :=
  {| json_Unmarshal_config := json_Unmarshal_config base;
     json_Unmarshal_map := Unmarshal (json_Unmarshal_map base);
     json_Marshal_map := Marshal (json_Marshal_map base);
     ovs_AddBridge := ovs_AddBridge base;
     ovs_AddPort := ovs_AddPort base;
     ovs_DeletePort := ovs_DeletePort base;
     ns_GetNS := ns_GetNS base;
     ns_hostNS := ns_hostNS base;
     ns_Do_switch := ns_Do_switch base;
     ip_SetupVeth := ip_SetupVeth base;
     ipam_ExecAdd := ipam_ExecAdd base;
     ipam_ExecDel := ipam_ExecDel base;
     current_NewResultFromResult := current_NewResultFromResult base;
     ipam_ConfigureIface := ipam_ConfigureIface base;
     io_WriteFile := io_WriteFile base;
     types_PrintResult := types_PrintResult base |}.

End GoJSON.

(** ** Observations on a run *)

(** The mapping a process that has just started holds after
    [readHostInterfacesFromFile()], given the state file [f]. *)
Definition loaded (W : World) (f : option bytes) : gomap :=
  hostInterfaces (snd (readHostInterfacesFromFile W (init f))).

(** The results handed to [types.PrintResult], in order. *)
Fixpoint emitted (tr : list event) : list current.Result :=
  match tr with
  | [] => []
  | EvPrintResult r _ :: rest => r :: emitted rest
  | _ :: rest => emitted rest
  end.

Definition is_WriteFile (ev : event) : bool :=
  match ev with EvWriteFile _ _ _ => true | _ => false end.
Definition is_ReadFile (ev : event) : bool :=
  match ev with EvReadFile _ => true | _ => false end.

(** The errors [cmdAdd] returns from the steps that come before the state
    file is touched: configuration decoding, bridge creation, opening the
    namespace, veth creation, port attachment, the IPAM request, the result
    conversion, the empty-address check and the interface configuration. *)
Definition raised_before_persist (e : error) : Prop :=
  match e with
  | LibError o _ =>
      o ∈ [FromJSON; FromNS; FromSetupVeth; FromExecAdd; FromNewResult; FromConfigureIface]
  | Errorf format _ =>
      format ∈ [ "Failed to add bridge %s. Error = %s";
                 "failed to open netns %q: %v";
                 "Failed to add port %s to bridge %s. Error = %s";
                 "IPAM plugin returns no IP address" ]
  end.

#[global] Instance raised_before_persist_dec e : Decision (raised_before_persist e).
Proof. destruct e; simpl; apply _. Defined.

(** The decoder gives back the mapping the encoder was given. *)
Definition faithful (W : World) (g : gmap string iface) : Prop :=
  ∃ data kvs,
    json_Marshal_map W (Some g) = Val data ∧
    json_Unmarshal_map W data = DecObject kvs ∧
    foldl (fun g kv => <[kv.1 := kv.2]> g) ∅ kvs = g.

(** Every write to the state file goes through. *)
Definition writable (W : World) : Prop :=
  ∀ old data, io_WriteFile W old data = None.

(** ** Two invocations sharing the state file

    The store update of [cmdAdd] is three statements; each invocation is its
    own process with its own [hostInterfaces], and only the file is shared.  A
    schedule says which process runs its next statement. *)

Inductive stmt : Type :=
| SRead                      (* readHostInterfacesFromFile() *)
| SAssign (k v : string)     (* hostInterfaces[k] = v *)
| SWrite.                    (* writeHostInterfacesToFile() *)

Definition exec (W : World) (s : stmt) : M unit :=
  match s with
  | SRead => let* _ := readHostInterfacesFromFile W in ret tt
  | SAssign k v => hostInterfaces_assign k (IString v)
  | SWrite => let* _ := writeHostInterfacesToFile W in ret tt
  end.

(** [// Update JSON file] in [cmdAdd]. *)
Definition update_block (id hostIfName : string) : list stmt :=
  [SRead; SAssign id hostIfName; SWrite].

Record proc := mkProc {
  p_mem : gomap;
  p_trace : list event;
  p_code : list stmt }.

Definition start (code : list stmt) : proc :=
  {| p_mem := Some ∅; p_trace := []; p_code := code |}.

Definition step1 (W : World) (p : proc) (f : option bytes) : proc * option bytes :=
  match p_code p with
  | [] => (p, f)
  | s :: rest =>
      match exec W s {| hostInterfaces := p_mem p; file := f; trace := p_trace p |} with
      | (Ret _, st') =>
          ({| p_mem := hostInterfaces st'; p_trace := trace st'; p_code := rest |}, file st')
      | (Panic _, st') =>
          ({| p_mem := hostInterfaces st'; p_trace := trace st'; p_code := [] |}, file st')
      end
  end.

Inductive pid : Type := P1 | P2.

Fixpoint run (W : World) (sched : list pid) (p q : proc) (f : option bytes)
    : proc * proc * option bytes :=
  match sched with
  | [] => (p, q, f)
  | P1 :: s => let '(p', f') := step1 W p f in run W s p' q f'
  | P2 :: s => let '(q', f') := step1 W q f in run W s p q' f'
  end.

(** What [writeHostInterfacesToFile()] leaves in the state file when the
    process holds the mapping [g] and the file is [f]. *)
Definition saved (W : World) (g : gomap) (f : option bytes) : option bytes :=
  file (snd (writeHostInterfacesToFile W {| hostInterfaces := g; file := f; trace := [] |})).

(** The process state after a first ADD for container [c1] in the reference
    world, with no state file yet. *)
Definition st_added : state :=
  snd (cmdAdd (Ref.world []) (Ref.args "c1" Ref.conf_br0) (init None)).

Definition store2 : gmap string string := <["c2" := "veth9b0c"]> {["c1" := "veth1f3a"]}.

(** ** Further observations *)

(** The outside calls [writeHostInterfacesToFile()] makes when the process
    holds the mapping [g] and the file is [f]. *)
Definition write_calls (W : World) (g : gomap) (f : option bytes) : list event :=
  trace (snd (writeHostInterfacesToFile W {| hostInterfaces := g; file := f; trace := [] |})).

(** Calls that undo what ADD set up. *)
Definition is_teardown (ev : event) : bool :=
  match ev with
  | EvDeletePort _ _ | EvExecDel _ _ => true
  | _ => false
  end.

(** Calls that set up or report what ADD creates. *)
Definition is_setup (ev : event) : bool :=
  match ev with
  | EvAddBridge _ | EvAddPort _ _ | EvGetNS _ | EvNsDo _ | EvNsClose _
  | EvSetupVeth _ _ _ | EvExecAdd _ _ | EvConfigureIface _ _ | EvPrintResult _ _ => true
  | _ => false
  end.

Definition is_AddPort (ev : event) : bool :=
  match ev with EvAddPort _ _ => true | _ => false end.

Definition is_ipam (ev : event) : bool :=
  match ev with
  | EvExecAdd _ _ | EvExecDel _ _ | EvConfigureIface _ _ | EvPrintResult _ _ => true
  | _ => false
  end.

(** What the loop over [result.IPs] leaves alone. *)
Definition same_address (a b : option current.IPConfig) : Prop :=
  match a, b with
  | Some x, Some y =>
      current.Version x = current.Version y ∧
      current.Address x = current.Address y ∧
      current.Gateway x = current.Gateway y
  | _, _ => False
  end.

(** The errors [cmdDel] returns. *)
Definition del_error (e : error) : Prop :=
  match e with
  | LibError o _ => o ∈ [FromJSON; FromExecDel]
  | Errorf format _ => format = "Failed to delete port %s from bridge %s. Error = %s"
  end.

#[global] Instance del_error_dec e : Decision (del_error e).
Proof. destruct e; simpl; apply _. Defined.

(** [W] with another decoder for the state file. *)
Definition with_decoder (W : World) (dec : bytes -> decoded) : World :=
  {| json_Unmarshal_config := json_Unmarshal_config W;
     json_Unmarshal_map := dec;
     json_Marshal_map := json_Marshal_map W;
     ovs_AddBridge := ovs_AddBridge W;
     ovs_AddPort := ovs_AddPort W;
     ovs_DeletePort := ovs_DeletePort W;
     ns_GetNS := ns_GetNS W;
     ns_hostNS := ns_hostNS W;
     ns_Do_switch := ns_Do_switch W;
     ip_SetupVeth := ip_SetupVeth W;
     ipam_ExecAdd := ipam_ExecAdd W;
     ipam_ExecDel := ipam_ExecDel W;
     current_NewResultFromResult := current_NewResultFromResult W;
     ipam_ConfigureIface := ipam_ConfigureIface W;
     io_WriteFile := io_WriteFile W;
     types_PrintResult := types_PrintResult W |}.

(** A state file whose entry for [c1] is a number, as decoded. *)
Definition number_entry (_ : bytes) : decoded := DecObject [("c1", IFloat64 5)].

(** The state file after a first ADD for [c1] in the reference world. *)
Definition file_c1 : option bytes := Some (Ref.file1 "c1" "veth1f3a").

(** A mapping held in memory and a state file with other entries. *)
Definition held : gmap string iface := {["c0" := IString "veth0000"]}.
Definition members2 : list (string * iface) :=
  [("c1", IString "vethold"); ("c2", IString "veth9b0c"); ("c1", IString "veth1f3a")].

Definition is_NsClose (ev : event) : bool :=
  match ev with EvNsClose _ => true | _ => false end.

(** How many of the calls in a trace satisfy [p]. *)
Definition calls (p : event -> bool) (tr : list event) : nat :=
  length (List.filter p tr).

(** A state file that holds another container, [c0]. *)
Definition file_c0 : option bytes := Some (Ref.file1 "c0" "veth0000").

(** * Proofs *)

Ltac unfold_calls :=
  unfold VSwitch_AddBridge, VSwitch_AddPort, VSwitch_DeletePort, fmt_Println,
    ns_GetNS_call, NetNS_Close, NetNS_Do, ip_SetupVeth_call, ipam_ExecAdd_call,
    ipam_ExecDel_call, ipam_ConfigureIface_call, types_PrintResult_call,
    ioutil_ReadFile, ioutil_WriteFile, json_Unmarshal_hostInterfaces,
    json_Marshal_hostInterfaces, hostInterfaces_index, hostInterfaces_assign,
    hostInterfaces_delete, assert_string, defer, bind, ret, panic, log in *.

Ltac unfold_plugin :=
  unfold createVeth, createOvsBr, addOvsPort, deleteOvsPort,
    readHostInterfacesFromFile, writeHostInterfacesToFile in *.

(** Case analysis on an outcome that no other pending outcome hides. *)
Ltac branch_hyp :=
  match goal with
  | H : context [match ?x with _ => _ end] |- _ =>
      lazymatch x with
      | context [match _ with _ => _ end] => fail
      | _ => destruct x eqn:?
      end
  end.

Ltac branch_goal :=
  match goal with
  | |- context [match ?x with _ => _ end] =>
      lazymatch x with
      | context [match _ with _ => _ end] => fail
      | _ => destruct x eqn:?
      end
  end.

(** Follow every path of a run recorded in hypothesis [H]. *)
Ltac paths H := repeat (cbn in H; simplify_eq; try branch_hyp).

Ltac use_eqs :=
  repeat match goal with
         | H : ?x = _ |- context [?x] => rewrite H
         end.

Ltac early_step := eapply (@bool_decide_unpack _ (raised_before_persist_dec _)); exact I.
Ltac not_early_step H := exfalso; exact (bool_decide_pack _ H).

(** ** The state store: [readHostInterfacesFromFile], [writeHostInterfacesToFile] *)

Lemma read_no_file W g tr :
  readHostInterfacesFromFile W {| hostInterfaces := g; file := None; trace := tr |}
  = (Ret None,
     {| hostInterfaces := g; file := None; trace := tr ++ [EvReadFile HostInterfaceJson] |}).
Proof. reflexivity. Qed.

Lemma read_file W g data tr :
  readHostInterfacesFromFile W {| hostInterfaces := g; file := Some data; trace := tr |}
  = match json_Unmarshal_map W data with
    | DecError _ =>
        (Ret (Some (Errorf "Fail to decode host interface JSON" [])),
         {| hostInterfaces := g; file := Some data;
            trace := tr ++ [EvReadFile HostInterfaceJson] |})
    | DecNull =>
        (Ret None,
         {| hostInterfaces := None; file := Some data;
            trace := tr ++ [EvReadFile HostInterfaceJson] |})
    | DecObject kvs =>
        (Ret None,
         {| hostInterfaces := Some (foldl (fun g kv => <[kv.1 := kv.2]> g) (default ∅ g) kvs);
            file := Some data; trace := tr ++ [EvReadFile HostInterfaceJson] |})
    | DecPartial _ kvs =>
        (Ret (Some (Errorf "Fail to decode host interface JSON" [])),
         {| hostInterfaces := Some (foldl (fun g kv => <[kv.1 := kv.2]> g) (default ∅ g) kvs);
            file := Some data; trace := tr ++ [EvReadFile HostInterfaceJson] |})
    end.
Proof. unfold_plugin; unfold_calls; simpl. destruct (json_Unmarshal_map W data); reflexivity. Qed.

Lemma write_spec W g f tr :
  writeHostInterfacesToFile W {| hostInterfaces := g; file := f; trace := tr |}
  = match json_Marshal_map W g with
    | Fail _ =>
        (Ret (Some (Errorf "Fail to encode host interface JSON" [])),
         {| hostInterfaces := g; file := f; trace := tr |})
    | Val data =>
        match io_WriteFile W f data with
        | None =>
            (Ret None, {| hostInterfaces := g; file := Some data;
                          trace := tr ++ [EvWriteFile HostInterfaceJson data 420] |})
        | Some (_, rest) =>
            (Ret (Some (Errorf "Fail to write host interface JSON" [])),
             {| hostInterfaces := g; file := rest;
                trace := tr ++ [EvWriteFile HostInterfaceJson data 420] |})
        end
    end.
Proof.
  unfold_plugin; unfold_calls; cbn.
  destruct (json_Marshal_map W g) as [data|]; [|reflexivity]; cbn.
  destruct (io_WriteFile W f data) as [[? ?]|]; reflexivity.
Qed.

#[local] Arguments writeHostInterfacesToFile : simpl never.
#[local] Arguments readHostInterfacesFromFile : simpl never.

Lemma loaded_no_file W : loaded W None = Some ∅.
Proof. reflexivity. Qed.

Lemma loaded_file W data :
  loaded W (Some data) =
    match json_Unmarshal_map W data with
    | DecError _ => Some ∅
    | DecNull => None
    | DecObject kvs | DecPartial _ kvs =>
        Some (foldl (fun g kv => <[kv.1 := kv.2]> g) ∅ kvs)
    end.
Proof.
  unfold loaded, init. rewrite read_file. destruct (json_Unmarshal_map W data); reflexivity.
Qed.

Lemma loaded_faithful W g data kvs :
  json_Unmarshal_map W data = DecObject kvs →
  foldl (fun g kv => <[kv.1 := kv.2]> g) ∅ kvs = g →
  loaded W (Some data) = Some g.
Proof. intros Hu Hk. rewrite loaded_file, Hu, Hk. reflexivity. Qed.

(** The first load of a process, wherever it comes in the trace. *)
Lemma read_after W f tr :
  ∃ r, readHostInterfacesFromFile W {| hostInterfaces := Some ∅; file := f; trace := tr |}
       = (Ret r, {| hostInterfaces := loaded W f; file := f;
                    trace := tr ++ [EvReadFile HostInterfaceJson] |}).
Proof.
  destruct f as [data|].
  - rewrite loaded_file, read_file.
    destruct (json_Unmarshal_map W data); eexists; reflexivity.
  - eexists; reflexivity.
Qed.

Lemma read_init W f :
  ∃ r, readHostInterfacesFromFile W (init f)
       = (Ret r, {| hostInterfaces := loaded W f; file := f;
                    trace := [EvReadFile HostInterfaceJson] |}).
Proof. apply (read_after W f []). Qed.

Lemma load_missing_file W :
  readHostInterfacesFromFile W (init None)
  = (Ret None,
     {| hostInterfaces := Some ∅; file := None; trace := [EvReadFile HostInterfaceJson] |}).
Proof. reflexivity. Qed.

Lemma load_undecodable_file W data msg :
  json_Unmarshal_map W data = DecError msg →
  readHostInterfacesFromFile W (init (Some data))
  = (Ret (Some (Errorf "Fail to decode host interface JSON" [])),
     {| hostInterfaces := Some ∅; file := Some data;
        trace := [EvReadFile HostInterfaceJson] |}).
Proof. intros H. unfold init. rewrite read_file, H. reflexivity. Qed.

(** Decoding an object into a map that already has entries: the members
    are laid over the entries. *)
Lemma decode_into (kvs : list (string * iface)) (acc g0 : gmap string iface) :
  foldl (fun g kv => <[kv.1 := kv.2]> g) (acc ∪ g0) kvs
  = foldl (fun g kv => <[kv.1 := kv.2]> g) acc kvs ∪ g0.
Proof.
  revert acc. induction kvs as [|[k v] kvs IH]; intros acc; cbn; [reflexivity|].
  rewrite <- IH. f_equal. apply insert_union_l.
Qed.

(** ** encoding/json on the state file *)

Section GoJSONFacts.
Import GoJSON.

Lemma bytes_length_ind (P : bytes → Prop) :
  (∀ s, (∀ t, length t < length s → P t) → P s) → ∀ s, P s.
Proof.
  intros H s. remember (length s) as n eqn:Hn. revert s Hn.
  induction n as [n IH] using lt_wf_ind. intros s ->.
  apply H. intros t Ht. exact (IH _ Ht t eq_refl).
Qed.

Lemma accept_high b0 b1 : accept b0 b1 = true → (code b1 <? RuneSelf)%N = false.
Proof.
  unfold accept, between, RuneSelf. intros H.
  apply andb_true_iff in H as [H _]. apply N.leb_le in H. apply N.ltb_ge.
  destruct (byte_is 224 b0); [lia|]. destruct (byte_is 240 b0); lia.
Qed.

Lemma cont_high b : cont b = true → (code b <? RuneSelf)%N = false.
Proof.
  unfold cont, between, RuneSelf. intros H.
  apply andb_true_iff in H as [H _]. apply N.leb_le in H. apply N.ltb_ge. lia.
Qed.

Lemma scan_escape b u :
  (code b <? RuneSelf)%N = true →
  scan true (escape b ++ u) = foldr push (scan true u) (escape b).
Proof. destruct b; intros H; try discriminate H; reflexivity. Qed.

Lemma scan_high b u :
  (code b <? RuneSelf)%N = false → scan true (b :: u) = push b (scan true u).
Proof. destruct b; intros H; try discriminate H; reflexivity. Qed.


Lemma string_body_high b0 r0 :
  (code b0 <? RuneSelf)%N = false →
  string_body (b0 :: r0) =
    match first b0, r0 with
    | 2, b1 :: r1 =>
        if accept b0 b1 then b0 :: b1 :: string_body r1
        else replacement ++ string_body r0
    | 3, b1 :: b2 :: r2 =>
        if accept b0 b1 && cont b2
        then (if line_separator b0 b1 b2
              then Ref.bs "\u202" ++ [hex (N.land (code b2) 0xF)]
              else [b0; b1; b2]) ++ string_body r2
        else replacement ++ string_body r0
    | 4, b1 :: b2 :: b3 :: r3 =>
        if accept b0 b1 && cont b2 && cont b3
        then b0 :: b1 :: b2 :: b3 :: string_body r3
        else replacement ++ string_body r0
    | _, _ => replacement ++ string_body r0
    end.
Proof. intros H. cbn [string_body]. rewrite H. reflexivity. Qed.

Lemma string_body_low b0 r0 :
  (code b0 <? RuneSelf)%N = true →
  string_body (b0 :: r0) = escape b0 ++ string_body r0.
Proof. intros H. cbn [string_body]. rewrite H. reflexivity. Qed.

Lemma scan_replacement u :
  scan true (replacement ++ u) = foldr push (scan true u) (replacement).
Proof. reflexivity. Qed.

Lemma line_separator_inv b0 b1 b2 :
  line_separator b0 b1 b2 = true →
  b0 = Byte.xe2 ∧ b1 = Byte.x80 ∧ (b2 = Byte.xa8 ∨ b2 = Byte.xa9).
Proof.
  intros H. unfold line_separator in H.
  apply andb_true_iff in H as [H H2]. apply andb_true_iff in H as [H0 H1].
  split; [destruct b0; try discriminate H0; reflexivity|].
  split; [destruct b1; try discriminate H1; reflexivity|].
  destruct b2; try discriminate H2; auto.
Qed.

(** The scanner reads through whatever the encoder writes between the
    quotes. *)
Lemma scan_string_body s : ∀ u,
  scan true (string_body s ++ u) = foldr push (scan true u) (string_body s).
Proof.
  induction s as [s IH] using bytes_length_ind. intros u.
  destruct s as [|b0 r0]; [reflexivity|].
  destruct (code b0 <? RuneSelf)%N eqn:Hb0.
  { rewrite string_body_low by exact Hb0.
    rewrite <- app_assoc, scan_escape, foldr_app, IH by (exact Hb0 || (cbn; lia)).
    reflexivity. }
  assert (Hbad : scan true ((replacement ++ string_body r0) ++ u)
                 = foldr push (scan true u) (replacement ++ string_body r0)).
  { rewrite <- app_assoc, scan_replacement, foldr_app, IH by (cbn; lia). reflexivity. }
  rewrite string_body_high by exact Hb0.
  destruct (first b0) as [|[|[|[|[|n]]]]]; try exact Hbad.
  - destruct r0 as [|b1 r1]; [exact Hbad|].
    destruct (accept b0 b1) eqn:H1; [|exact Hbad].
    cbn [app foldr]. rewrite scan_high by exact Hb0.
    rewrite scan_high by (eapply accept_high; exact H1).
    rewrite IH by (cbn; lia). reflexivity.
  - destruct r0 as [|b1 [|b2 r2]]; try exact Hbad.
    destruct (accept b0 b1) eqn:H1; [|exact Hbad].
    destruct (cont b2) eqn:H2; [|exact Hbad].
    cbn [andb]. destruct (line_separator b0 b1 b2) eqn:Hl.
    + apply line_separator_inv in Hl as (-> & -> & [-> | ->]);
        rewrite <- app_assoc, foldr_app, <- IH by (cbn; lia); reflexivity.
    + cbn [app foldr]. rewrite scan_high by exact Hb0.
      rewrite scan_high by (eapply accept_high; exact H1).
      rewrite scan_high by (eapply cont_high; exact H2).
      rewrite IH by (cbn; lia). reflexivity.
  - destruct r0 as [|b1 [|b2 [|b3 r3]]]; try exact Hbad.
    destruct (accept b0 b1) eqn:H1; [|exact Hbad].
    destruct (cont b2) eqn:H2; [|exact Hbad].
    destruct (cont b3) eqn:H3; [|exact Hbad].
    cbn [andb app foldr]. rewrite scan_high by exact Hb0.
    rewrite scan_high by (eapply accept_high; exact H1).
    rewrite scan_high by (eapply cont_high; exact H2).
    rewrite scan_high by (eapply cont_high; exact H3).
    rewrite IH by (cbn; lia). reflexivity.
Qed.

Lemma pushes_string piece body (r : option (list token)) :
  foldr push (cons (TString body) <$> r) piece = cons (TString (piece ++ body)) <$> r.
Proof.
  induction piece as [|c piece IH]; [reflexivity|].
  cbn [foldr app]. rewrite IH. destruct r; reflexivity.
Qed.

Lemma scan_literal s u :
  scan false (string_literal s ++ u)
  = cons (TString (string_body (Ref.bs s))) <$> scan false u.
Proof.
  unfold string_literal, Ref.quote. rewrite <- !app_assoc.
  change (scan false ([Byte.x22] ++ string_body (Ref.bs s) ++ [Byte.x22] ++ u))
    with (scan true (string_body (Ref.bs s) ++ Byte.x22 :: u)).
  rewrite scan_string_body.
  change (scan true (Byte.x22 :: u)) with (cons (TString []) <$> scan false u).
  rewrite pushes_string, app_nil_r. reflexivity.
Qed.


Lemma unquote_escape b u :
  (code b <? RuneSelf)%N = true →
  unquote (escape b ++ u) = cons b <$> unquote u.
Proof. destruct b; intros H; try discriminate H; reflexivity. Qed.

Lemma unquote_high c r :
  (code c <? RuneSelf)%N = false →
  unquote (c :: r) =
    match first c, r with
    | 2, b1 :: r1 =>
        if accept c b1 then app [c; b1] <$> unquote r1
        else app RuneError <$> unquote r
    | 3, b1 :: b2 :: r2 =>
        if accept c b1 && cont b2 then app [c; b1; b2] <$> unquote r2
        else app RuneError <$> unquote r
    | 4, b1 :: b2 :: b3 :: r3 =>
        if accept c b1 && cont b2 && cont b3 then app [c; b1; b2; b3] <$> unquote r3
        else app RuneError <$> unquote r
    | _, _ => app RuneError <$> unquote r
    end.
Proof. destruct c; intros H; try discriminate H; reflexivity. Qed.

Lemma Valid_high b0 r0 :
  (code b0 <? RuneSelf)%N = false →
  Valid (b0 :: r0) =
    match first b0, r0 with
    | 2, b1 :: r1 => accept b0 b1 && Valid r1
    | 3, b1 :: b2 :: r2 => accept b0 b1 && cont b2 && Valid r2
    | 4, b1 :: b2 :: b3 :: r3 => accept b0 b1 && cont b2 && cont b3 && Valid r3
    | _, _ => false
    end.
Proof. intros H. cbn [Valid]. rewrite H. reflexivity. Qed.

Lemma unquote_line_separator b2 u :
  b2 = Byte.xa8 ∨ b2 = Byte.xa9 →
  unquote ((Ref.bs "\u202" ++ [hex (N.land (code b2) 0xF)]) ++ u)
  = app [Byte.xe2; Byte.x80; b2] <$> unquote u.
Proof. intros [-> | ->]; reflexivity. Qed.

(** A string of well-formed UTF-8 comes back from its literal as it was. *)
Lemma unquote_string_body s :
  Valid s = true → unquote (string_body s) = Some s.
Proof.
  induction s as [s IH] using bytes_length_ind. intros Hv.
  destruct s as [|b0 r0]; [reflexivity|].
  destruct (code b0 <? RuneSelf)%N eqn:Hb0.
  { rewrite string_body_low by exact Hb0. rewrite unquote_escape by exact Hb0.
    cbn [Valid] in Hv. rewrite Hb0 in Hv. rewrite IH by (exact Hv || (cbn; lia)).
    reflexivity. }
  rewrite Valid_high in Hv by exact Hb0. rewrite string_body_high by exact Hb0.
  destruct (first b0) as [|[|[|[|[|n]]]]] eqn:Hf; try discriminate Hv.
  - destruct r0 as [|b1 r1]; [discriminate Hv|].
    apply andb_true_iff in Hv as [H1 Hv]. rewrite H1.
    rewrite unquote_high, Hf, H1 by exact Hb0.
    rewrite IH by (exact Hv || (cbn; lia)). reflexivity.
  - destruct r0 as [|b1 [|b2 r2]]; try discriminate Hv.
    apply andb_true_iff in Hv as [H12 Hv]. rewrite H12.
    destruct (line_separator b0 b1 b2) eqn:Hl.
    + apply line_separator_inv in Hl as (-> & -> & Hb2).
      rewrite unquote_line_separator by exact Hb2.
      rewrite IH by (exact Hv || (cbn; lia)). reflexivity.
    + cbn [app]. rewrite unquote_high, Hf, H12 by exact Hb0.
      rewrite IH by (exact Hv || (cbn; lia)). reflexivity.
  - destruct r0 as [|b1 [|b2 [|b3 r3]]]; try discriminate Hv.
    apply andb_true_iff in Hv as [H123 Hv]. rewrite H123.
    rewrite unquote_high, Hf, H123 by exact Hb0.
    rewrite IH by (exact Hv || (cbn; lia)). reflexivity.
Qed.


Lemma unquote_literal s :
  ValidString s = true →
  string_of_list_byte <$> unquote (string_body (Ref.bs s)) = Some s.
Proof.
  intros H. unfold ValidString in H. rewrite unquote_string_body by exact H.
  cbn. unfold Ref.bs. rewrite string_of_list_byte_of_string. reflexivity.
Qed.

Lemma scan_member k v u :
  scan false ((string_literal k ++ Ref.bs ":" ++ string_literal v) ++ u)
  = (λ ts, TString (string_body (Ref.bs k)) :: TColon
           :: TString (string_body (Ref.bs v)) :: ts) <$> scan false u.
Proof.
  rewrite <- !app_assoc, scan_literal.
  change (scan false (Ref.bs ":" ++ string_literal v ++ u))
    with (cons TColon <$> scan false (string_literal v ++ u)).
  rewrite scan_literal. destruct (scan false u); reflexivity.
Qed.

Lemma members_member k v rest :
  ValidString k = true → ValidString v = true →
  members (TString (string_body (Ref.bs k)) :: TColon
           :: TString (string_body (Ref.bs v)) :: rest)
  = match rest with
    | [TClose] => Some [(k, IString v)]
    | TComma :: rest' => cons (k, IString v) <$> members rest'
    | _ => None
    end.
Proof.
  intros Hk Hv. cbn [members].
  unfold ValidString in Hk, Hv.
  rewrite !unquote_string_body by assumption.
  unfold Ref.bs. rewrite !string_of_list_byte_of_string. reflexivity.
Qed.

#[local] Arguments string_literal : simpl never.
#[local] Arguments ValidString : simpl never.

Lemma members_text_cons k v rest :
  members_text ((k, IString v) :: rest)
  = cons (string_literal k ++ Ref.bs ":" ++ string_literal v) <$> members_text rest.
Proof. cbn [members_text]. destruct (members_text rest); reflexivity. Qed.

Lemma scan_members kvs : ∀ ms,
  kvs ≠ [] → members_text kvs = Some ms → Forall utf8_member kvs →
  scan false (Ref.jjoin ms ++ Ref.bs "}") ≫= members = Some kvs.
Proof.
  induction kvs as [|[k x] rest IH]; intros ms Hne Hms Hall; [congruence|].
  apply Forall_cons in Hall as [(v & Hx & Hk & Hv) Hall]. cbn in Hx, Hk. subst x.
  rewrite members_text_cons in Hms.
  destruct (members_text rest) as [ms'|] eqn:Hrest; [|discriminate].
  assert (ms = (string_literal k ++ Ref.bs ":" ++ string_literal v) :: ms') as ->
    by (cbv [fmap option_fmap option_map] in Hms; congruence).
  clear Hms.
  destruct rest as [|kv' rest'].
  - cbn in Hrest. injection Hrest as <-. cbn [Ref.jjoin].
    rewrite scan_member. change (scan false (Ref.bs "}")) with (Some [TClose]).
    cbn [fmap option_fmap option_map mbind option_bind].
    rewrite members_member by assumption. reflexivity.
  - assert (Hms' : ∃ m' ms'', ms' = m' :: ms'').
    { destruct kv' as [k' [ | v' | | | | ]]; cbn in Hrest; try discriminate.
      destruct (members_text rest'); [|discriminate]. injection Hrest as <-. eauto. }
    destruct Hms' as (m' & ms'' & ->).
    change (Ref.jjoin ((string_literal k ++ Ref.bs ":" ++ string_literal v) :: m' :: ms''))
      with ((string_literal k ++ Ref.bs ":" ++ string_literal v)
            ++ Ref.bs "," ++ Ref.jjoin (m' :: ms'')).
    rewrite <- app_assoc, scan_member, <- app_assoc.
    change (scan false (Ref.bs "," ++ Ref.jjoin (m' :: ms'') ++ Ref.bs "}"))
      with (cons TComma <$> scan false (Ref.jjoin (m' :: ms'') ++ Ref.bs "}")).
    specialize (IH (m' :: ms'') ltac:(discriminate) eq_refl Hall).
    destruct (scan false (Ref.jjoin (m' :: ms'') ++ Ref.bs "}")) as [ts|]; [|discriminate].
    cbn [fmap option_fmap option_map mbind option_bind] in IH |- *.
    rewrite members_member by assumption. rewrite IH. reflexivity.
Qed.

(** What the encoder writes for string members, the decoder reads back. *)
Lemma Unmarshal_members other kvs ms :
  members_text kvs = Some ms → Forall utf8_member kvs →
  Unmarshal other (Ref.jobject ms) = DecObject kvs.
Proof.
  intros Hms Hall. unfold Unmarshal, Ref.jobject.
  change (Ref.bytes_eqb (Ref.bs "{" ++ Ref.jjoin ms ++ Ref.bs "}") (Ref.bs "null")) with false.
  cbv iota.
  change (scan false (Ref.bs "{" ++ Ref.jjoin ms ++ Ref.bs "}"))
    with (cons TOpen <$> scan false (Ref.jjoin ms ++ Ref.bs "}")).
  destruct kvs as [|kv kvs].
  - cbn in Hms. injection Hms as <-. reflexivity.
  - pose proof (scan_members (kv :: kvs) ms ltac:(discriminate) Hms Hall) as H.
    destruct (scan false (Ref.jjoin ms ++ Ref.bs "}")) as [ts|]; [|discriminate].
    cbn [fmap option_fmap option_map mbind option_bind] in H |- *.
    destruct ts as [|t ts]; [discriminate|].
    destruct t; try discriminate.
    cbn [object]. rewrite H. reflexivity.
Qed.


Lemma members_text_total kvs :
  Forall utf8_member kvs → ∃ ms, members_text kvs = Some ms.
Proof.
  induction 1 as [|[k x] rest (v & Hx & _) _ [ms IH]]; [eexists; reflexivity|].
  cbn in Hx. subst x. rewrite members_text_cons, IH. eexists; reflexivity.
Qed.

Lemma fold_members_list_to_map (kvs : list (string * iface)) : ∀ acc : gmap string iface,
  NoDup kvs.*1 → (∀ k, k ∈ kvs.*1 → acc !! k = None) →
  foldl (fun g kv => <[kv.1 := kv.2]> g) acc kvs = list_to_map kvs ∪ acc.
Proof.
  induction kvs as [|[k v] rest IH]; intros acc Hnd Hacc; cbn.
  { rewrite (left_id_L ∅ (∪)). reflexivity. }
  cbn in Hnd. apply NoDup_cons in Hnd as [Hk Hnd].
  rewrite IH.
  - rewrite <- insert_union_l, <- insert_union_r; [reflexivity|].
    apply not_elem_of_list_to_map_1. exact Hk.
  - exact Hnd.
  - intros k' Hk'. rewrite lookup_insert_ne.
    + apply Hacc. cbn. apply elem_of_cons. right. exact Hk'.
    + intros ->. contradiction.
Qed.

(** encoding/json gives back a mapping of strings of well-formed UTF-8. *)
Lemma faithful_utf8 (base : World) (m : gmap string string) :
  ValidStore m = true → faithful (world base) (IString <$> m).
Proof.
  intros Hvalid.
  assert (Hm : ∀ k v, m !! k = Some v → ValidString k = true ∧ ValidString v = true).
  { intros k v Hk. unfold ValidStore in Hvalid.
    rewrite forallb_forall in Hvalid.
    specialize (Hvalid (k, v)). cbn in Hvalid. apply andb_true_iff, Hvalid.
    apply list_elem_of_In, elem_of_map_to_list. exact Hk. }
  set (g := IString <$> m).
  set (kvs := merge_sort Ref.key_le (map_to_list g)).
  assert (Hperm : kvs ≡ₚ map_to_list g) by apply merge_sort_Permutation.
  assert (Hall : Forall utf8_member kvs).
  { rewrite Hperm. apply Forall_forall. intros [k x] Hkx.
    apply elem_of_map_to_list in Hkx. unfold g in Hkx.
    rewrite lookup_fmap in Hkx. destruct (m !! k) as [v|] eqn:Hk; [|discriminate].
    injection Hkx as <-. destruct (Hm k v Hk) as [H1 H2]. exists v. auto. }
  destruct (members_text_total kvs Hall) as [ms Hms].
  exists (Ref.jobject ms), kvs. split; [|split].
  - cbn. fold g. fold kvs. rewrite Hms. reflexivity.
  - cbn. apply Unmarshal_members; assumption.
  - rewrite fold_members_list_to_map.
    + rewrite (right_id_L ∅ (∪)).
      rewrite (list_to_map_proper kvs (map_to_list g)).
      * apply list_to_map_to_list.
      * rewrite Hperm. apply NoDup_fst_map_to_list.
      * exact Hperm.
    + rewrite Hperm. apply NoDup_fst_map_to_list.
    + intros k _. apply lookup_empty.
Qed.

End GoJSONFacts.

(** C8, as the code has it.  For every mapping from container identifiers to
    host-interface names that are well-formed UTF-8, with the state file
    writable: saving it and then loading it gives the identical mapping, in
    the next invocation (a process that starts with an empty
    [hostInterfaces]) and in the same process; and loading when there is no
    state file gives the empty mapping and no error.  The encoder and the
    decoder are those of [GoJSON]; nothing is assumed of them. *)
Theorem save_then_load_utf8_roundtrip (base : World) (m : gmap string string) f :
  let W := GoJSON.world base in
  let g : gmap string iface := IString <$> m in
  GoJSON.ValidStore m = true →
  (∀ data, io_WriteFile base f data = None) →
  ∃ data,
    writeHostInterfacesToFile W {| hostInterfaces := Some g; file := f; trace := [] |}
    = (Ret None, {| hostInterfaces := Some g; file := Some data;
                    trace := [EvWriteFile HostInterfaceJson data 420] |}) ∧
    readHostInterfacesFromFile W (init (Some data))
    = (Ret None, {| hostInterfaces := Some g; file := Some data;
                    trace := [EvReadFile HostInterfaceJson] |}) ∧
    readHostInterfacesFromFile W
      {| hostInterfaces := Some g; file := Some data;
         trace := [EvWriteFile HostInterfaceJson data 420] |}
    = (Ret None, {| hostInterfaces := Some g; file := Some data;
                    trace := [EvWriteFile HostInterfaceJson data 420;
                              EvReadFile HostInterfaceJson] |}) ∧
    readHostInterfacesFromFile W (init None)
    = (Ret None, {| hostInterfaces := Some ∅; file := None;
                    trace := [EvReadFile HostInterfaceJson] |}).
Proof.
  intros W g Hvalid Hw.
  destruct (faithful_utf8 base m Hvalid) as (data & kvs & Hm & Hu & Hk).
  fold W in Hm, Hu. fold g in Hm, Hk.
  exists data. rewrite write_spec, Hm. change (io_WriteFile W f data) with (io_WriteFile base f data).
  rewrite (Hw data). split; [reflexivity|].
  assert (Hg : foldl (fun g kv => <[kv.1 := kv.2]> g) g kvs = g).
  { rewrite <- (left_id_L ∅ (∪) g) at 1. rewrite decode_into, Hk. apply (idemp_L (∪)). }
  unfold init. rewrite !read_file, Hu. cbn. rewrite Hk, Hg.
  repeat split.
Qed.

(** The round trip on a two-entry store, with no state file before. *)
Lemma save_then_load_utf8_roundtrip_witness :
  let W := GoJSON.world (Ref.world []) in
  let g : gmap string iface := IString <$> store2 in
  ∃ data,
    writeHostInterfacesToFile W {| hostInterfaces := Some g; file := None; trace := [] |}
    = (Ret None, {| hostInterfaces := Some g; file := Some data;
                    trace := [EvWriteFile HostInterfaceJson data 420] |}) ∧
    readHostInterfacesFromFile W (init (Some data))
    = (Ret None, {| hostInterfaces := Some g; file := Some data;
                    trace := [EvReadFile HostInterfaceJson] |}) ∧
    readHostInterfacesFromFile W
      {| hostInterfaces := Some g; file := Some data;
         trace := [EvWriteFile HostInterfaceJson data 420] |}
    = (Ret None, {| hostInterfaces := Some g; file := Some data;
                    trace := [EvWriteFile HostInterfaceJson data 420;
                              EvReadFile HostInterfaceJson] |}) ∧
    readHostInterfacesFromFile W (init None)
    = (Ret None, {| hostInterfaces := Some ∅; file := None;
                    trace := [EvReadFile HostInterfaceJson] |}).
Proof.
  apply (save_then_load_utf8_roundtrip (Ref.world []) store2 None).
  - vm_compute. reflexivity.
  - intros data. reflexivity.
Defined.

(** C8 does not hold of every mapping.  A Go string is any sequence of bytes,
    and [json.Marshal] writes a byte that is no UTF-8 as the escape of
    U+FFFD.  For the container identifier [c] followed by the byte [0xff]:
    the save succeeds, the load succeeds, and the mapping that comes back has
    the interface name under another identifier, [c] followed by U+FFFD, and
    nothing under the identifier that was saved. *)
Theorem save_then_load_rewrites_invalid_utf8 :
  let W := GoJSON.world (Ref.world []) in
  let id := string_of_list_byte [Byte.x63; Byte.xff] in
  let id' := string_of_list_byte ([Byte.x63] ++ GoJSON.RuneError) in
  let g : gmap string iface := IString <$> {[ id := "veth1f3a" ]} in
  let text := Ref.bs "{" ++ Ref.quote ++ Ref.bs "c" ++ GoJSON.replacement ++ Ref.quote
              ++ Ref.bs ":" ++ Ref.jstr "veth1f3a" ++ Ref.bs "}" in
  writeHostInterfacesToFile W {| hostInterfaces := Some g; file := None; trace := [] |}
  = (Ret None, {| hostInterfaces := Some g; file := Some text;
                  trace := [EvWriteFile HostInterfaceJson text 420] |}) ∧
  readHostInterfacesFromFile W (init (Some text))
  = (Ret None, {| hostInterfaces := Some {[ id' := IString "veth1f3a" ]};
                  file := Some text; trace := [EvReadFile HostInterfaceJson] |}) ∧
  go_index (loaded W (Some text)) id = INil ∧
  go_index (Some g) id = IString "veth1f3a".
Proof. cbv zeta. repeat split; vm_compute; reflexivity. Qed.

(** ** DEL *)

(** C1, as the code has it.  For a DEL whose configuration decodes and whose
    container has no entry in the store as loaded: the IPAM delegate teardown
    is invoked first, before the store is read; if it fails DEL returns that
    failure without reading the store; otherwise the store is loaded, the
    container is looked up, and DEL returns success without calling the switch
    and without writing the state file. *)
Theorem cmdDel_absent_entry W a f config :
  json_Unmarshal_config W (skel.StdinData a) = Val config →
  go_index (loaded W f) (skel.ContainerID a) = INil →
  cmdDel W a (init f) =
    let call := EvExecDel (types.Type_ (types.ipam (NetConf config))) (skel.StdinData a) in
    match ipam_ExecDel W (types.Type_ (types.ipam (NetConf config))) (skel.StdinData a) with
    | Some e =>
        (Ret (Some (LibError FromExecDel e)),
         {| hostInterfaces := Some ∅; file := f; trace := [call] |})
    | None =>
        (Ret None,
         {| hostInterfaces := loaded W f; file := f;
            trace := [call; EvReadFile HostInterfaceJson] |})
    end.
Proof.
  intros Hcfg Habs. unfold cmdDel. rewrite Hcfg.
  unfold ipam_ExecDel_call, hostInterfaces_index, bind at 1 2 3, log, ret, init; cbn.
  destruct (ipam_ExecDel W _ _); [reflexivity|].
  unfold bind.
  destruct (read_after W f
              [EvExecDel (types.Type_ (types.ipam (NetConf config))) (skel.StdinData a)])
    as [r ->].
  cbn. rewrite Habs. reflexivity.
Qed.

(** DEL for the unknown container [c99] while the store holds [c1]. *)
Lemma cmdDel_absent_entry_witness :
  cmdDel (Ref.world []) (Ref.args "c99" Ref.conf_br0) (init (Some (Ref.file1 "c1" "veth1f3a")))
  = (Ret None,
     {| hostInterfaces := Some {["c1" := IString "veth1f3a"]};
        file := Some (Ref.file1 "c1" "veth1f3a");
        trace := [EvExecDel "host-local" Ref.conf_br0; EvReadFile HostInterfaceJson] |}).
Proof.
  refine (eq_trans (cmdDel_absent_entry (Ref.world []) (Ref.args "c99" Ref.conf_br0)
            (Some (Ref.file1 "c1" "veth1f3a"))
            {| NetConf := Ref.netconf0; PublicBridgeName := "br0" |} _ _) _);
    vm_compute; reflexivity.
Defined.

(** C1 fails as stated: for the unknown container [c99] the delegate teardown
    is the first call DEL makes, before the state file is read, and when the
    delegate fails DEL fails. *)
Lemma cmdDel_unknown_container_runs_delegate :
  let a := Ref.args "c99" Ref.conf_br0 in
  let f := Some (Ref.file1 "c1" "veth1f3a") in
  go_index (loaded (Ref.world []) f) (skel.ContainerID a) = INil ∧
  trace (snd (cmdDel (Ref.world []) a (init f)))
    = [EvExecDel "host-local" Ref.conf_br0; EvReadFile HostInterfaceJson] ∧
  go_index (loaded (Ref.world [Ref.BadExecDel]) f) (skel.ContainerID a) = INil ∧
  cmdDel (Ref.world [Ref.BadExecDel]) a (init f) =
    (Ret (Some (LibError FromExecDel "ipam: release failed")),
     {| hostInterfaces := Some ∅; file := f;
        trace := [EvExecDel "host-local" Ref.conf_br0] |}).
Proof. repeat split; vm_compute; reflexivity. Qed.

(** C2, as the code has it.  For a DEL whose container has an entry, a
    failure of the switch detach aborts DEL: it returns the "Failed to delete
    port" error, the entry stays in the mapping, and the state file is neither
    written nor changed. *)
Theorem cmdDel_detach_failure W a f config name e :
  json_Unmarshal_config W (skel.StdinData a) = Val config →
  ipam_ExecDel W (types.Type_ (types.ipam (NetConf config))) (skel.StdinData a) = None →
  go_index (loaded W f) (skel.ContainerID a) = IString name →
  ovs_DeletePort W (PublicBridgeName config) name = Some e →
  cmdDel W a (init f) =
    (Ret (Some (Errorf "Failed to delete port %s from bridge %s. Error = %s"
                       [name; PublicBridgeName config; e])),
     {| hostInterfaces := loaded W f; file := f;
        trace := [ EvExecDel (types.Type_ (types.ipam (NetConf config))) (skel.StdinData a);
                   EvReadFile HostInterfaceJson;
                   EvDeletePort (PublicBridgeName config) name;
                   EvPrintln ["%s %s"; PublicBridgeName config; name] ] |}).
Proof.
  intros Hcfg Hdel Hent Hport. unfold cmdDel. rewrite Hcfg.
  unfold ipam_ExecDel_call, hostInterfaces_index, bind at 1 2 3, log, ret, init; cbn.
  rewrite Hdel. unfold bind at 1.
  destruct (read_after W f
              [EvExecDel (types.Type_ (types.ipam (NetConf config))) (skel.StdinData a)])
    as [r ->].
  cbn. rewrite Hent. unfold deleteOvsPort. unfold_calls. cbn. rewrite Hport. reflexivity.
Qed.

(** DEL for [c1] when the switch reports that the port is gone. *)
Lemma cmdDel_detach_failure_witness :
  cmdDel (Ref.world [Ref.BadDeletePort]) (Ref.args "c1" Ref.conf_br0)
         (init (Some (Ref.file1 "c1" "veth1f3a")))
  = (Ret (Some (Errorf "Failed to delete port %s from bridge %s. Error = %s"
                       ["veth1f3a"; "br0"; "ovs-vsctl: no port"])),
     {| hostInterfaces := Some {["c1" := IString "veth1f3a"]};
        file := Some (Ref.file1 "c1" "veth1f3a");
        trace := [ EvExecDel "host-local" Ref.conf_br0; EvReadFile HostInterfaceJson;
                   EvDeletePort "br0" "veth1f3a"; EvPrintln ["%s %s"; "br0"; "veth1f3a"] ] |}).
Proof.
  refine (eq_trans (cmdDel_detach_failure (Ref.world [Ref.BadDeletePort])
            (Ref.args "c1" Ref.conf_br0) (Some (Ref.file1 "c1" "veth1f3a"))
            {| NetConf := Ref.netconf0; PublicBridgeName := "br0" |}
            "veth1f3a" "ovs-vsctl: no port" _ _ _ _) _);
    vm_compute; reflexivity.
Defined.

(** C2 fails as stated: with an entry for [c1] in the store and a switch that
    fails to delete the port, DEL fails, the entry is still in the mapping and
    the state file was not written. *)
Lemma cmdDel_detach_failure_aborts :
  let W := Ref.world [Ref.BadDeletePort] in
  let a := Ref.args "c1" Ref.conf_br0 in
  let f := Some (Ref.file1 "c1" "veth1f3a") in
  go_index (loaded W f) (skel.ContainerID a) = IString "veth1f3a" ∧
  ∃ st', cmdDel W a (init f) =
           (Ret (Some (Errorf "Failed to delete port %s from bridge %s. Error = %s"
                              ["veth1f3a"; "br0"; "ovs-vsctl: no port"])), st') ∧
         go_index (hostInterfaces st') "c1" = IString "veth1f3a" ∧
         file st' = f ∧
         forallb (fun ev => negb (is_WriteFile ev)) (trace st') = true.
Proof.
  split; [vm_compute; reflexivity|].
  eexists. split; [vm_compute; reflexivity|]. repeat split.
Qed.

(** When the detach succeeds the entry is deleted and the mapping is written
    back; DEL returns success whatever the write reports. *)
Lemma cmdDel_present W a f config name :
  json_Unmarshal_config W (skel.StdinData a) = Val config →
  ipam_ExecDel W (types.Type_ (types.ipam (NetConf config))) (skel.StdinData a) = None →
  go_index (loaded W f) (skel.ContainerID a) = IString name →
  ovs_DeletePort W (PublicBridgeName config) name = None →
  ∃ st', cmdDel W a (init f) = (Ret None, st') ∧
         hostInterfaces st' = go_delete (loaded W f) (skel.ContainerID a) ∧
         file st' = saved W (go_delete (loaded W f) (skel.ContainerID a)) f.
Proof.
  intros Hcfg Hdel Hent Hport. unfold cmdDel. rewrite Hcfg.
  unfold ipam_ExecDel_call, hostInterfaces_index, bind at 1 2 3, log, ret, init; cbn.
  rewrite Hdel. unfold bind at 1.
  destruct (read_after W f
              [EvExecDel (types.Type_ (types.ipam (NetConf config))) (skel.StdinData a)])
    as [r ->].
  cbn. rewrite Hent. unfold deleteOvsPort, saved. unfold_calls. cbn. rewrite Hport. cbn.
  rewrite !write_spec.
  destruct (json_Marshal_map W _) as [data|]; cbn; [|eauto].
  destruct (io_WriteFile W f data) as [[? ?]|]; cbn; eauto.
Qed.

(** ** ADD *)

Lemma associate_IPs_spec ips ips' :
  associate_IPs ips = Some ips' →
  length ips' = length ips ∧
  Forall (fun ip => ∃ c, ip = Some c ∧ current.Interface_ c = Some 0%Z) ips'.
Proof.
  revert ips'. induction ips as [|[ip|] rest IH]; intros ips' H; simpl in H.
  - inversion H; subst. split; [reflexivity | constructor].
  - destruct (associate_IPs rest) as [rest'|] eqn:E; [|discriminate].
    inversion H; subst. destruct (IH rest' eq_refl) as [Hlen Hall].
    split; [simpl; congruence|]. constructor; [|exact Hall].
    eexists. split; reflexivity.
  - discriminate.
Qed.

(** A successful ADD, read backwards: every step before the store update
    succeeded, one result was printed, and the store update ran. *)
Lemma cmdAdd_success_inv W a f st' :
  cmdAdd W a (init f) = (Ret None, st') →
  ∃ config netns hostVeth contVeth r result ips,
    json_Unmarshal_config W (skel.StdinData a) = Val config ∧
    ns_GetNS W (skel.Netns a) = Val netns ∧
    ip_SetupVeth W (skel.IfName a) DefaultMTU (ns_hostNS W) = Val (hostVeth, contVeth) ∧
    ipam_ExecAdd W (types.Type_ (types.ipam (NetConf config))) (skel.StdinData a) = Val r ∧
    current_NewResultFromResult W r = Val result ∧
    current.IPs result ≠ [] ∧
    associate_IPs (current.IPs result) = Some ips ∧
    emitted (trace st') =
      [ {| current.CNIVersion := current.CNIVersion result;
           current.Interfaces :=
             [Some {| current.Name := net.Name contVeth;
                      current.Mac := net.HardwareAddr contVeth;
                      current.Sandbox := ns.Path netns |}];
           current.IPs := ips;
           current.Routes := current.Routes result;
           current.DNS := types.dns (NetConf config) |} ] ∧
    go_assign (loaded W f) (skel.ContainerID a) (IString (net.Name hostVeth))
      = Some (hostInterfaces st') ∧
    file st' = saved W (hostInterfaces st') f.
Proof.
  intros H. unfold cmdAdd, init in H. unfold_plugin. unfold_calls.
  paths H.
  all: do 7 eexists; repeat split; try eassumption; try reflexivity.
  all: try (intros Hnil; rewrite Hnil in *; discriminate).
  all: unfold loaded, saved, init; rewrite ?read_no_file, ?read_file, ?write_spec;
    cbn; use_eqs; cbn; try reflexivity.
Qed.

(** C3. When ADD fails at a step before the state store is touched
    (configuration decoding, bridge creation, opening the namespace, veth
    creation, port attachment, the IPAM request, the result conversion, the
    empty-address check, the interface configuration), nothing is persisted:
    the state file is what it was, the mapping was not changed, and the run
    contains no read and no write of the state file. *)
Theorem cmdAdd_failure_leaves_store W a f e st' :
  cmdAdd W a (init f) = (Ret (Some e), st') →
  raised_before_persist e →
  file st' = f ∧
  hostInterfaces st' = Some ∅ ∧
  forallb (fun ev => negb (is_ReadFile ev || is_WriteFile ev)) (trace st') = true.
Proof.
  intros H Hbp. unfold cmdAdd, init in H. unfold_plugin. unfold_calls.
  paths H.
  all: try (repeat split; reflexivity).
  all: not_early_step Hbp.
Qed.

(** ADD for [c1] when the switch refuses the port. *)
Lemma cmdAdd_failure_leaves_store_witness :
  ∃ e st',
    cmdAdd (Ref.world [Ref.BadAddPort]) (Ref.args "c1" Ref.conf_br0) (init None)
      = (Ret (Some e), st') ∧
    raised_before_persist e ∧
    file st' = None ∧ hostInterfaces st' = Some ∅ ∧
    forallb (fun ev => negb (is_ReadFile ev || is_WriteFile ev)) (trace st') = true.
Proof.
  eexists _, _. split; [vm_compute; reflexivity|].
  assert (Hbp : raised_before_persist
    (Errorf "Failed to add port %s to bridge %s. Error = %s"
            ["veth1f3a"; "br0"; "ovs-vsctl: no bridge"])).
  { eapply (@bool_decide_unpack _ (raised_before_persist_dec _)). vm_compute. exact I. }
  split; [exact Hbp|].
  eapply (cmdAdd_failure_leaves_store (Ref.world [Ref.BadAddPort])
            (Ref.args "c1" Ref.conf_br0) None); [vm_compute; reflexivity | exact Hbp].
Defined.

(** X9. Every error ADD returns either comes from a step before the store
    update or is the one of [types.PrintResult], after it: what the load and
    the save of the state file report never reaches the caller. *)
Lemma cmdAdd_errors W a f e st' :
  cmdAdd W a (init f) = (Ret (Some e), st') →
  raised_before_persist e ∨ ∃ msg, e = LibError FromPrintResult msg.
Proof.
  intros H. unfold cmdAdd, init in H. unfold_plugin. unfold_calls.
  paths H.
  all: try (right; eexists; reflexivity).
  all: left; early_step.
Qed.

(** Each of the early steps does fail with such an error in some world. *)
Lemma every_early_step_can_fail :
  Forall (fun fl =>
            ∃ e st', cmdAdd (Ref.world [fl]) (Ref.args "c1" Ref.conf_br0) (init None)
                       = (Ret (Some e), st') ∧
                     bool_decide (raised_before_persist e) = true ∧ file st' = None)
         [ Ref.BadAddBridge; Ref.BadGetNS; Ref.BadNsDo; Ref.BadSetupVeth; Ref.BadAddPort;
           Ref.BadExecAdd; Ref.BadNewResult; Ref.NoIPs; Ref.BadConfigureIface ].
Proof.
  repeat constructor; eexists _, _;
    (split; [vm_compute; reflexivity|]); split; vm_compute; reflexivity.
Qed.

Lemma malformed_config_is_an_early_step :
  cmdAdd (Ref.world []) (Ref.args "c1" (Ref.bs "{")) (init None)
  = (Ret (Some (LibError FromJSON "invalid character")), init None).
Proof. vm_compute. reflexivity. Qed.

Lemma emit_failure_comes_after_persist :
  ∃ st', cmdAdd (Ref.world [Ref.BadPrintResult]) (Ref.args "c1" Ref.conf_br0) (init None)
           = (Ret (Some (LibError FromPrintResult "broken pipe")), st') ∧
         file st' = Some (Ref.file1 "c1" "veth1f3a").
Proof. eexists. split; vm_compute; reflexivity. Qed.

(** C6, as the code has it.  Configuration parsing fails exactly when
    [json.Unmarshal] does: ADD and DEL then return its error and do nothing
    else.  A configuration that decodes is accepted with whatever switch name
    it carries, the empty one included: the first thing ADD does is to create
    the bridge of that name. *)
Theorem config_decoding_gate W a f :
  match json_Unmarshal_config W (skel.StdinData a) with
  | Fail e =>
      cmdAdd W a (init f) = (Ret (Some (LibError FromJSON e)), init f) ∧
      cmdDel W a (init f) = (Ret (Some (LibError FromJSON e)), init f)
  | Val config =>
      head (trace (snd (cmdAdd W a (init f)))) = Some (EvAddBridge (PublicBridgeName config))
  end.
Proof.
  destruct (json_Unmarshal_config W (skel.StdinData a)) as [config|e] eqn:Hcfg.
  - unfold cmdAdd. rewrite Hcfg. unfold init. unfold_plugin. unfold_calls.
    repeat (cbn; try branch_goal); reflexivity.
  - unfold cmdAdd, cmdDel. rewrite Hcfg. split; reflexivity.
Qed.

(** C6 fails as stated: a configuration without [publicBridgeName] decodes
    (the field is the empty string) and ADD goes on to create the bridge named
    by the empty string; when the switch refuses, the error ADD returns is the
    switch's, not a configuration error. *)
Lemma cmdAdd_accepts_missing_bridge_name :
  let a := Ref.args "c1" Ref.conf_nobridge in
  (∃ config, json_Unmarshal_config (Ref.world []) (skel.StdinData a) = Val config ∧
             PublicBridgeName config = EmptyString) ∧
  head (trace (snd (cmdAdd (Ref.world []) a (init None)))) = Some (EvAddBridge EmptyString) ∧
  cmdAdd (Ref.world [Ref.BadAddBridge]) a (init None)
  = (Ret (Some (Errorf "Failed to add bridge %s. Error = %s"
                       [EmptyString; "ovs-vsctl: permission denied"])),
     {| hostInterfaces := Some ∅; file := None; trace := [EvAddBridge EmptyString] |}).
Proof.
  split; [eexists; split; vm_compute; reflexivity|].
  split; vm_compute; reflexivity.
Qed.

(** X24. What a successful ADD does guarantee: one result was emitted; it has
    at least one IP entry; every IP entry carries an index that points at an
    interface of the result; and the mapping the process holds has, for the
    container, the name of the host-side interface that [ip.SetupVeth] created
    (a map has one entry per key).  For the state file this gives the entry
    only when [json.Marshal] encoded the mapping and [ioutil.WriteFile]
    succeeded: the file is then that encoding. *)
Theorem cmdAdd_success_result_and_store W a f st' :
  cmdAdd W a (init f) = (Ret None, st') →
  ∃ result hostVeth contVeth g,
    emitted (trace st') = [result] ∧
    current.IPs result ≠ [] ∧
    Forall (fun ip => ∃ c i itf,
              ip = Some c ∧ current.Interface_ c = Some i ∧ (0 ≤ i)%Z ∧
              current.Interfaces result !! Z.to_nat i = Some (Some itf))
           (current.IPs result) ∧
    ip_SetupVeth W (skel.IfName a) DefaultMTU (ns_hostNS W) = Val (hostVeth, contVeth) ∧
    hostInterfaces st' = Some g ∧
    g !! skel.ContainerID a = Some (IString (net.Name hostVeth)) ∧
    (∀ data, json_Marshal_map W (Some g) = Val data →
             io_WriteFile W f data = None →
             file st' = Some data).
Proof.
  intros H.
  destruct (cmdAdd_success_inv _ _ _ _ H)
    as (config & netns & hostVeth & contVeth & r & result & ips &
        Hcfg & Hns & Hveth & Hipam & Hconv & Hne & Hips & Hem & Hst & Hfile).
  destruct (associate_IPs_spec _ _ Hips) as [Hlen Hall].
  unfold go_assign in Hst. destruct (loaded W f) as [g0|] eqn:Hl; [|discriminate].
  injection Hst as Hg. symmetry in Hg.
  eexists _, hostVeth, contVeth, _.
  split; [exact Hem|]. cbn.
  split.
  { intros ->. destruct (current.IPs result); [congruence|discriminate]. }
  split.
  { eapply Forall_impl; [exact Hall|]. intros ip (c & -> & Hc).
    exists c, 0%Z, {| current.Name := net.Name contVeth;
                      current.Mac := net.HardwareAddr contVeth;
                      current.Sandbox := ns.Path netns |}.
    repeat split; [exact Hc | lia]. }
  split; [exact Hveth|].
  split; [exact Hg|].
  split; [apply lookup_insert_eq|].
  intros data Hm Hw. rewrite Hfile, Hg. unfold saved. rewrite write_spec, Hm, Hw. reflexivity.
Qed.

(** The first ADD for [c1] in the reference world. *)
Lemma cmdAdd_success_result_and_store_witness :
  ∃ result hostVeth contVeth g,
    emitted (trace st_added) = [result] ∧
    current.IPs result ≠ [] ∧
    Forall (fun ip => ∃ c i itf,
              ip = Some c ∧ current.Interface_ c = Some i ∧ (0 ≤ i)%Z ∧
              current.Interfaces result !! Z.to_nat i = Some (Some itf))
           (current.IPs result) ∧
    ip_SetupVeth (Ref.world []) "eth0" DefaultMTU (ns_hostNS (Ref.world []))
      = Val (hostVeth, contVeth) ∧
    hostInterfaces st_added = Some g ∧
    g !! "c1" = Some (IString (net.Name hostVeth)) ∧
    (∀ data, json_Marshal_map (Ref.world []) (Some g) = Val data →
             io_WriteFile (Ref.world []) None data = None →
             file st_added = Some data).
Proof.
  apply (cmdAdd_success_result_and_store (Ref.world []) (Ref.args "c1" Ref.conf_br0) None).
  vm_compute. reflexivity.
Defined.



(** When every step succeeds, what [cmdAdd] returns is what
    [types.PrintResult] returns, whatever became of the state file. *)
Lemma cmdAdd_returns_print_outcome W a f config netns hostVeth contVeth r result ips g0 :
  json_Unmarshal_config W (skel.StdinData a) = Val config →
  ovs_AddBridge W (PublicBridgeName config) = None →
  ns_GetNS W (skel.Netns a) = Val netns →
  ns_Do_switch W netns = None →
  ip_SetupVeth W (skel.IfName a) DefaultMTU (ns_hostNS W) = Val (hostVeth, contVeth) →
  ovs_AddPort W (PublicBridgeName config) (net.Name hostVeth) = None →
  ipam_ExecAdd W (types.Type_ (types.ipam (NetConf config))) (skel.StdinData a) = Val r →
  current_NewResultFromResult W r = Val result →
  current.IPs result ≠ [] →
  associate_IPs (current.IPs result) = Some ips →
  let contIface := {| current.Name := net.Name contVeth;
                      current.Mac := net.HardwareAddr contVeth;
                      current.Sandbox := ns.Path netns |} in
  ipam_ConfigureIface W (net.Name contVeth)
    {| current.CNIVersion := current.CNIVersion result;
       current.Interfaces := [Some contIface]; current.IPs := ips;
       current.Routes := current.Routes result; current.DNS := current.DNS result |} = None →
  loaded W f = Some g0 →
  let final := {| current.CNIVersion := current.CNIVersion result;
                  current.Interfaces := [Some contIface]; current.IPs := ips;
                  current.Routes := current.Routes result;
                  current.DNS := types.dns (NetConf config) |} in
  let g := Some (<[skel.ContainerID a := IString (net.Name hostVeth)]> g0) in
  ∃ st', cmdAdd W a (init f)
           = (Ret (LibError FromPrintResult <$>
                     types_PrintResult W final (types.CNIVersion (NetConf config))), st') ∧
         hostInterfaces st' = g ∧
         file st' = saved W g f.
Proof.
  intros Hcfg Hbr Hns Hsw Hveth Hport Hipam Hconv Hne Hips contIface Hconf Hl final g.
  unfold cmdAdd. rewrite Hcfg. unfold createVeth, createOvsBr, addOvsPort, init.
  unfold VSwitch_AddBridge, VSwitch_AddPort, ns_GetNS_call, NetNS_Close, NetNS_Do,
    ip_SetupVeth_call, ipam_ExecAdd_call, ipam_ConfigureIface_call, types_PrintResult_call,
    hostInterfaces_assign, defer, bind, ret, log.
  cbn. rewrite Hbr. cbn. rewrite Hns. cbn. rewrite Hsw. cbn. rewrite Hveth. cbn.
  rewrite Hport. cbn. rewrite Hipam. cbn. rewrite Hconv.
  destruct (current.IPs result) as [|ip0 ips0] eqn:Hip; [congruence|]. cbn [length Nat.eqb].
  rewrite Hips. cbn. fold contIface. rewrite Hconf. cbn.
  match goal with
  | |- context [readHostInterfacesFromFile W
                  {| hostInterfaces := _; file := _; trace := ?tr |}] =>
      destruct (read_after W f tr) as [rr ->]
  end.
  cbn. rewrite Hl. cbn. rewrite write_spec. unfold saved. rewrite write_spec. subst g.
  destruct (json_Marshal_map W _) as [data|]; cbn.
  - destruct (io_WriteFile W f data) as [[? ?]|]; cbn;
      destruct (types_PrintResult W _ _); cbn; eauto.
  - destruct (types_PrintResult W _ _); cbn; eauto.
Qed.

(** C4 does not hold of the code.  [writeHostInterfacesToFile] reports a
    failed write, but [cmdAdd] and [cmdDel] call it as a statement and drop
    what it returns.  With a state file that cannot be written: ADD for [c1]
    returns success, although the write it made returned "Fail to write host
    interface JSON" and the file has no entry; DEL for [c1] returns success,
    although the entry is still in the file. *)
Theorem write_failure_is_reported_as_success :
  let W := Ref.world [Ref.BadWriteFile] in
  (∃ st', cmdAdd W (Ref.args "c1" Ref.conf_br0) (init None) = (Ret None, st') ∧
          go_index (hostInterfaces st') "c1" = IString "veth1f3a" ∧
          fst (writeHostInterfacesToFile W
                 {| hostInterfaces := hostInterfaces st'; file := None; trace := [] |})
            = Ret (Some (Errorf "Fail to write host interface JSON" [])) ∧
          file st' = None) ∧
  (∃ st', cmdDel W (Ref.args "c1" Ref.conf_br0) (init (Some (Ref.file1 "c1" "veth1f3a")))
            = (Ret None, st') ∧
          go_index (hostInterfaces st') "c1" = INil ∧
          fst (writeHostInterfacesToFile W
                 {| hostInterfaces := hostInterfaces st';
                    file := Some (Ref.file1 "c1" "veth1f3a"); trace := [] |})
            = Ret (Some (Errorf "Fail to write host interface JSON" [])) ∧
          file st' = Some (Ref.file1 "c1" "veth1f3a")).
Proof.
  split; eexists; (split; [vm_compute; reflexivity|]); repeat split; vm_compute; reflexivity.
Qed.

(** C7 does not hold of the code, in its last part.  The result of a
    successful ADD does have an IP entry, but the state store need not have
    the entry afterwards: the error of [writeHostInterfacesToFile()] is
    dropped, as for C4.  With a state file that cannot be written, ADD for
    [c1] returns success and emits a result with an IP entry, and
    - with no state file before, there is none afterwards, and the next
      invocation finds no entry for [c1];
    - with a state file that maps [c1] to [vethold], the file is unchanged:
      the next invocation finds [vethold] for [c1], not the interface
      [veth1f3a] this ADD created. *)
Theorem successful_add_without_stored_entry :
  let W := Ref.world [Ref.BadWriteFile] in
  let a := Ref.args "c1" Ref.conf_br0 in
  (∃ st' result,
     cmdAdd W a (init None) = (Ret None, st') ∧
     emitted (trace st') = [result] ∧
     current.IPs result ≠ [] ∧
     file st' = None ∧
     go_index (loaded (Ref.world []) (file st')) "c1" = INil) ∧
  (∃ st' result hostVeth contVeth,
     cmdAdd W a (init (Some (Ref.file1 "c1" "vethold"))) = (Ret None, st') ∧
     emitted (trace st') = [result] ∧
     current.IPs result ≠ [] ∧
     ip_SetupVeth W "eth0" DefaultMTU (ns_hostNS W) = Val (hostVeth, contVeth) ∧
     net.Name hostVeth = "veth1f3a" ∧
     file st' = Some (Ref.file1 "c1" "vethold") ∧
     go_index (loaded (Ref.world []) (file st')) "c1" = IString "vethold").
Proof.
  split.
  - eexists _, _. split; [vm_compute; reflexivity|].
    split; [vm_compute; reflexivity|]. split; [discriminate|].
    split; vm_compute; reflexivity.
  - eexists _, _, _, _. split; [vm_compute; reflexivity|].
    split; [vm_compute; reflexivity|]. split; [discriminate|].
    split; [vm_compute; reflexivity|].
    repeat split; vm_compute; reflexivity.
Qed.

(** C5 does not hold of the code.  Loading with no state file gives the empty
    mapping and no error ([load_missing_file]), and
    [readHostInterfacesFromFile] does return "Fail to decode host interface
    JSON" for a file that cannot be decoded ([load_undecodable_file]); but
    [cmdAdd] and [cmdDel] drop that error.  With a state file that is not
    JSON: ADD for [c1] returns success and replaces the file by a mapping
    with the one new entry; DEL returns success. *)
Theorem undecodable_state_file_is_ignored :
  let W := Ref.world [] in
  let f := Some (Ref.bs "not json") in
  fst (readHostInterfacesFromFile W (init f))
    = Ret (Some (Errorf "Fail to decode host interface JSON" [])) ∧
  (∃ st', cmdAdd W (Ref.args "c1" Ref.conf_br0) (init f) = (Ret None, st') ∧
          file st' = Some (Ref.file1 "c1" "veth1f3a")) ∧
  (∃ st', cmdDel W (Ref.args "c1" Ref.conf_br0) (init f) = (Ret None, st') ∧
          file st' = f).
Proof.
  split; [vm_compute; reflexivity|].
  split; eexists; (split; [vm_compute; reflexivity|]); vm_compute; reflexivity.
Qed.

(** ** Two invocations at once *)

Lemma step_read W f code :
  step1 W {| p_mem := Some ∅; p_trace := []; p_code := SRead :: code |} f
  = ({| p_mem := loaded W f; p_trace := [EvReadFile HostInterfaceJson]; p_code := code |}, f).
Proof.
  unfold step1, exec, bind; cbn -[readHostInterfacesFromFile].
  destruct (read_init W f) as [r Hr]. unfold init in Hr. rewrite Hr. reflexivity.
Qed.

Lemma step_assign W g tr k v code f :
  step1 W {| p_mem := Some g; p_trace := tr; p_code := SAssign k v :: code |} f
  = ({| p_mem := Some (<[k := IString v]> g); p_trace := tr; p_code := code |}, f).
Proof. reflexivity. Qed.


(** The three statements, run by one process without interruption, do to the
    mapping and to the file what the store update inside [cmdAdd] does. *)
Lemma cmdAdd_store_update W a f st' :
  cmdAdd W a (init f) = (Ret None, st') →
  ∃ hostVeth contVeth,
    ip_SetupVeth W (skel.IfName a) DefaultMTU (ns_hostNS W) = Val (hostVeth, contVeth) ∧
    ∀ q, let '(p, _, f') :=
           run W [P1; P1; P1]
               (start (update_block (skel.ContainerID a) (net.Name hostVeth))) q f in
         p_mem p = hostInterfaces st' ∧ f' = file st'.
Proof.
  intros H.
  destruct (cmdAdd_success_inv _ _ _ _ H)
    as (config & netns & hostVeth & contVeth & r & result & ips &
        Hcfg & Hns & Hveth & Hipam & Hconv & Hne & Hips & Hem & Hst & Hfile).
  exists hostVeth, contVeth. split; [exact Hveth|]. intros q.
  unfold go_assign in Hst. destruct (loaded W f) as [g0|] eqn:Hl; [|discriminate].
  injection Hst as Hg. symmetry in Hg.
  unfold run, start, update_block. rewrite step_read, Hl, step_assign.
  rewrite Hfile, Hg. unfold saved, step1, exec, bind; cbn -[writeHostInterfacesToFile].
  rewrite !write_spec. destruct (json_Marshal_map W _) as [data|]; cbn; [|auto].
  destruct (io_WriteFile W f data) as [[? ?]|]; cbn; auto.
Qed.




(** ** src/rainier.go *)

(** X19. The earlier [cmdAdd]: every error it returns comes from a step
    before the store update and leaves the store alone (no read, no write,
    file and mapping as they were). *)
Lemma legacy_cmdAdd_failure_leaves_store W a f e st' :
  RainierGo.cmdAdd W a (init f) = (Ret (Some e), st') →
  raised_before_persist e ∧
  file st' = f ∧
  hostInterfaces st' = Some ∅ ∧
  forallb (fun ev => negb (is_ReadFile ev || is_WriteFile ev)) (trace st') = true.
Proof.
  intros H. unfold RainierGo.cmdAdd, init in H. unfold_plugin. unfold_calls.
  paths H.
  all: split; [early_step|].
  all: repeat split; reflexivity.
Qed.

(** X21. The earlier [cmdDel] for a container without an entry: there is no
    nil check, and the type assertion on the missing entry panics, right
    after the read and before any call to the switch. *)
Lemma legacy_cmdDel_absent_entry_panics W a f config :
  json_Unmarshal_config W (skel.StdinData a) = Val config →
  go_index (loaded W f) (skel.ContainerID a) = INil →
  RainierGo.cmdDel W a (init f)
  = (Panic "interface conversion: interface {} is not string",
     {| hostInterfaces := loaded W f; file := f; trace := [EvReadFile HostInterfaceJson] |}).
Proof.
  intros Hcfg Habs. unfold RainierGo.cmdDel. rewrite Hcfg.
  unfold hostInterfaces_index, bind at 1 2 3.
  destruct (read_init W f) as [r ->]. cbn. rewrite Habs. reflexivity.
Qed.

(** The earlier [cmdDel] when the detach fails: the same early return. *)
Lemma legacy_cmdDel_detach_failure W a f config name e :
  json_Unmarshal_config W (skel.StdinData a) = Val config →
  go_index (loaded W f) (skel.ContainerID a) = IString name →
  ovs_DeletePort W (PublicBridgeName config) name = Some e →
  RainierGo.cmdDel W a (init f)
  = (Ret (Some (Errorf "Failed to delete port %s from bridge %s. Error = %s"
                       [name; PublicBridgeName config; e])),
     {| hostInterfaces := loaded W f; file := f;
        trace := [ EvReadFile HostInterfaceJson;
                   EvDeletePort (PublicBridgeName config) name;
                   EvPrintln ["%s %s"; PublicBridgeName config; name] ] |}).
Proof.
  intros Hcfg Hent Hport. unfold RainierGo.cmdDel. rewrite Hcfg.
  unfold hostInterfaces_index, bind at 1 2 3.
  destruct (read_init W f) as [r ->]. cbn. rewrite Hent.
  unfold deleteOvsPort. unfold_calls. cbn. rewrite Hport. reflexivity.
Qed.

(** ** More on the state store *)

Lemma write_frame W g f tr :
  writeHostInterfacesToFile W {| hostInterfaces := g; file := f; trace := tr |}
  = (fst (writeHostInterfacesToFile W {| hostInterfaces := g; file := f; trace := [] |}),
     {| hostInterfaces := g; file := saved W g f; trace := tr ++ write_calls W g f |}).
Proof.
  unfold saved, write_calls. rewrite !write_spec.
  destruct (json_Marshal_map W g) as [data|]; cbn; [|rewrite app_nil_r; reflexivity].
  destruct (io_WriteFile W f data) as [[? ?]|]; reflexivity.
Qed.

Lemma write_returns W st : ∃ r, (writeHostInterfacesToFile W st).1 = Ret r.
Proof.
  destruct st as [g f tr]. rewrite write_spec.
  destruct (json_Marshal_map W g) as [data|]; [|eauto].
  destruct (io_WriteFile W f data) as [[? ?]|]; eauto.
Qed.

(** X1. [readHostInterfacesFromFile], from any state: it never panics, makes
    one read, and never changes the state file.  With no file it reports no
    error and leaves the mapping as it was.  The only error it returns is
    "Fail to decode host interface JSON", for a file that exists and that
    encoding/json reports an error for.  The mapping is then as it was when
    the decoder stopped before storing anything; when it reports the error
    after storing the members of the object, these are laid over the mapping
    although the load fails. *)
Theorem load_frame W st :
  ∃ r st',
    readHostInterfacesFromFile W st = (Ret r, st') ∧
    file st' = file st ∧
    trace st' = trace st ++ [EvReadFile HostInterfaceJson] ∧
    (file st = None → r = None ∧ hostInterfaces st' = hostInterfaces st) ∧
    (∀ e, r = Some e →
          e = Errorf "Fail to decode host interface JSON" [] ∧
          ∃ data msg,
            file st = Some data ∧
            ((json_Unmarshal_map W data = DecError msg ∧
              hostInterfaces st' = hostInterfaces st) ∨
             (∃ kvs,
                json_Unmarshal_map W data = DecPartial msg kvs ∧
                hostInterfaces st'
                = Some (foldl (fun g kv => <[kv.1 := kv.2]> g)
                          (default ∅ (hostInterfaces st)) kvs)))).
Proof.
  destruct st as [g [data|] tr].
  - rewrite read_file.
    destruct (json_Unmarshal_map W data) as [msg| |kvs|msg kvs] eqn:Hu;
      (eexists _, _; split; [reflexivity|]; cbn;
       split; [reflexivity|]; split; [reflexivity|]; split; [discriminate|]).
    + intros e' He. injection He as <-. split; [reflexivity|].
      exists data, msg. split; [reflexivity|]. left. split; [exact Hu|reflexivity].
    + discriminate.
    + discriminate.
    + intros e' He. injection He as <-. split; [reflexivity|].
      exists data, msg. split; [reflexivity|]. right. exists kvs. split; [exact Hu|reflexivity].
  - rewrite read_no_file. eexists _, _. split; [reflexivity|]. cbn.
    repeat split; discriminate.
Qed.

Lemma fold_members_other (kvs : list (string * iface)) (g : gmap string iface) k :
  k ∉ kvs.*1 →
  foldl (fun g kv => <[kv.1 := kv.2]> g) g kvs !! k = g !! k.
Proof.
  revert g. induction kvs as [|[k' v'] kvs IH]; intros g Hk; cbn; [reflexivity|].
  cbn in Hk. apply not_elem_of_cons in Hk as [Hne Hk].
  rewrite IH by exact Hk. apply lookup_insert_ne. congruence.
Qed.

Lemma fold_members_last (kvs1 kvs2 : list (string * iface)) (g : gmap string iface) k v :
  k ∉ kvs2.*1 →
  foldl (fun g kv => <[kv.1 := kv.2]> g) g (kvs1 ++ (k, v) :: kvs2) !! k = Some v.
Proof.
  intros Hk. rewrite foldl_app. cbn. rewrite fold_members_other by exact Hk.
  apply lookup_insert_eq.
Qed.

(** X2. A load does not clear [hostInterfaces]: when the file decodes to an
    object, the entries the process already holds survive unless the object
    has a member of the same key, and for a key that occurs several times in
    the object the last member is the one that counts. *)
Theorem load_merges_into_held W g data kvs tr :
  json_Unmarshal_map W data = DecObject kvs →
  ∃ g',
    readHostInterfacesFromFile W {| hostInterfaces := Some g; file := Some data; trace := tr |}
    = (Ret None, {| hostInterfaces := Some g'; file := Some data;
                    trace := tr ++ [EvReadFile HostInterfaceJson] |}) ∧
    (∀ k, k ∉ kvs.*1 → g' !! k = g !! k) ∧
    (∀ kvs1 k v kvs2, kvs = kvs1 ++ (k, v) :: kvs2 → k ∉ kvs2.*1 → g' !! k = Some v).
Proof.
  intros Hu. eexists. rewrite read_file, Hu. split; [reflexivity|]. cbn. split.
  - intros k Hk. apply fold_members_other. exact Hk.
  - intros kvs1 k v kvs2 -> Hk. apply fold_members_last. exact Hk.
Qed.

(** A held entry [c0] and a file with [c1] twice and [c2]. *)
Lemma load_merges_into_held_witness :
  ∃ g',
    readHostInterfacesFromFile (with_decoder (Ref.world []) (fun _ => DecObject members2))
      {| hostInterfaces := Some held; file := Some (Ref.bs "{}"); trace := [] |}
    = (Ret None, {| hostInterfaces := Some g'; file := Some (Ref.bs "{}");
                    trace := [] ++ [EvReadFile HostInterfaceJson] |}) ∧
    (∀ k, k ∉ members2.*1 → g' !! k = held !! k) ∧
    (∀ kvs1 k v kvs2, members2 = kvs1 ++ (k, v) :: kvs2 → k ∉ kvs2.*1 → g' !! k = Some v).
Proof.
  apply (load_merges_into_held (with_decoder (Ref.world []) (fun _ => DecObject members2))
           held (Ref.bs "{}") members2 []).
  reflexivity.
Defined.

(** X3. [writeHostInterfacesToFile], from any state: it never panics and
    never changes the mapping.  It reports no error exactly when the mapping
    was encoded and the write went through, and then the file is that
    encoding, written by one call with mode 0644.  When the mapping cannot be
    encoded it returns "Fail to encode host interface JSON" and nothing is
    written: the state is as before. *)
Theorem save_frame W st :
  ∃ r st',
    writeHostInterfacesToFile W st = (Ret r, st') ∧
    hostInterfaces st' = hostInterfaces st ∧
    (r = None ↔
       ∃ data, json_Marshal_map W (hostInterfaces st) = Val data ∧
               io_WriteFile W (file st) data = None) ∧
    (r = None → ∃ data, json_Marshal_map W (hostInterfaces st) = Val data ∧
                        file st' = Some data ∧
                        trace st' = trace st ++ [EvWriteFile HostInterfaceJson data 420]) ∧
    (∀ msg, json_Marshal_map W (hostInterfaces st) = Fail msg →
            r = Some (Errorf "Fail to encode host interface JSON" []) ∧ st' = st).
Proof.
  destruct st as [g f tr]. rewrite write_spec. cbn.
  destruct (json_Marshal_map W g) as [data|msg] eqn:Hm.
  - destruct (io_WriteFile W f data) as [[m rest]|] eqn:Hw.
    + eexists _, _. split; [reflexivity|]. cbn. split; [reflexivity|].
      split; [|split; [discriminate|discriminate]].
      split; [discriminate|]. intros (d & Hd & Hw'). congruence.
    + eexists _, _. split; [reflexivity|]. cbn. split; [reflexivity|].
      split; [|split; [eauto|discriminate]].
      split; eauto.
  - eexists _, _. split; [reflexivity|]. cbn. split; [reflexivity|].
    split; [|split; [discriminate|]].
    + split; [discriminate|]. intros (d & Hd & _). discriminate.
    + intros m _. split; reflexivity.
Qed.

(** ** More on DEL *)

(** DEL once the configuration is decoded and the delegate has released the
    address: everything turns on the entry of the container. *)
Lemma cmdDel_run W a f config :
  json_Unmarshal_config W (skel.StdinData a) = Val config →
  ipam_ExecDel W (types.Type_ (types.ipam (NetConf config))) (skel.StdinData a) = None →
  let call := EvExecDel (types.Type_ (types.ipam (NetConf config))) (skel.StdinData a) in
  let br := PublicBridgeName config in
  let id := skel.ContainerID a in
  cmdDel W a (init f) =
    match go_index (loaded W f) id with
    | INil =>
        (Ret None, {| hostInterfaces := loaded W f; file := f;
                      trace := [call; EvReadFile HostInterfaceJson] |})
    | IString name =>
        match ovs_DeletePort W br name with
        | Some e =>
            (Ret (Some (Errorf "Failed to delete port %s from bridge %s. Error = %s"
                               [name; br; e])),
             {| hostInterfaces := loaded W f; file := f;
                trace := [call; EvReadFile HostInterfaceJson; EvDeletePort br name;
                          EvPrintln ["%s %s"; br; name]] |})
        | None =>
            (Ret None,
             {| hostInterfaces := go_delete (loaded W f) id;
                file := saved W (go_delete (loaded W f) id) f;
                trace := [call; EvReadFile HostInterfaceJson; EvDeletePort br name]
                         ++ write_calls W (go_delete (loaded W f) id) f |})
        end
    | _ =>
        (Panic "interface conversion: interface {} is not string",
         {| hostInterfaces := loaded W f; file := f;
            trace := [call; EvReadFile HostInterfaceJson] |})
    end.
Proof.
  intros Hcfg Hdel. cbv zeta. unfold cmdDel. rewrite Hcfg.
  unfold ipam_ExecDel_call, hostInterfaces_index, bind at 1 2 3, log, ret, init; cbn.
  rewrite Hdel. unfold bind at 1.
  destruct (read_after W f
              [EvExecDel (types.Type_ (types.ipam (NetConf config))) (skel.StdinData a)])
    as [r ->].
  cbn.
  destruct (go_index (loaded W f) (skel.ContainerID a)) as [|name| | | |]; try reflexivity.
  unfold deleteOvsPort. unfold_calls. cbn.
  destruct (ovs_DeletePort W (PublicBridgeName config) name); cbn; [reflexivity|].
  rewrite write_frame.
  destruct (write_returns W {| hostInterfaces := go_delete (loaded W f) (skel.ContainerID a);
                              file := f; trace := [] |}) as [r' ->].
  reflexivity.
Qed.

Lemma go_delete_index m k k' :
  go_index (go_delete m k) k' = if decide (k = k') then INil else go_index m k'.
Proof.
  destruct m as [g|]; cbn; [|destruct (decide _); reflexivity].
  rewrite lookup_delete. destruct (decide (k = k')); reflexivity.
Qed.

(** X14. DEL for a container that has an entry, when the delegate and the
    switch succeed: the calls are the delegate teardown, the read, the port
    deletion for the recorded interface name, then the write; DEL returns
    success; the container has no entry left, every other container keeps
    its own, and the file is the encoding of the new mapping whenever the
    write went through. *)
Theorem cmdDel_removes_entry W a f config name :
  json_Unmarshal_config W (skel.StdinData a) = Val config →
  ipam_ExecDel W (types.Type_ (types.ipam (NetConf config))) (skel.StdinData a) = None →
  go_index (loaded W f) (skel.ContainerID a) = IString name →
  ovs_DeletePort W (PublicBridgeName config) name = None →
  ∃ st',
    cmdDel W a (init f) = (Ret None, st') ∧
    trace st' =
      [ EvExecDel (types.Type_ (types.ipam (NetConf config))) (skel.StdinData a);
        EvReadFile HostInterfaceJson;
        EvDeletePort (PublicBridgeName config) name ]
      ++ write_calls W (hostInterfaces st') f ∧
    go_index (hostInterfaces st') (skel.ContainerID a) = INil ∧
    (∀ id', id' ≠ skel.ContainerID a →
            go_index (hostInterfaces st') id' = go_index (loaded W f) id') ∧
    (∀ data, json_Marshal_map W (hostInterfaces st') = Val data →
             io_WriteFile W f data = None →
             file st' = Some data).
Proof.
  intros Hcfg Hdel Hent Hport. eexists.
  rewrite (cmdDel_run W a f config Hcfg Hdel). cbn. rewrite Hent, Hport.
  split; [reflexivity|]. cbn. split; [reflexivity|].
  split. { rewrite go_delete_index. rewrite decide_True by reflexivity. reflexivity. }
  split. { intros id' Hne. rewrite go_delete_index. rewrite decide_False by congruence.
           reflexivity. }
  intros data Hm Hw. unfold saved. rewrite write_spec, Hm, Hw. reflexivity.
Qed.

(** DEL for [c1] after its ADD. *)
Lemma cmdDel_removes_entry_witness :
  ∃ st',
    cmdDel (Ref.world []) (Ref.args "c1" Ref.conf_br0) (init file_c1) = (Ret None, st') ∧
    trace st' =
      [ EvExecDel "host-local" Ref.conf_br0; EvReadFile HostInterfaceJson;
        EvDeletePort "br0" "veth1f3a" ]
      ++ write_calls (Ref.world []) (hostInterfaces st') file_c1 ∧
    go_index (hostInterfaces st') "c1" = INil ∧
    (∀ id', id' ≠ "c1" →
            go_index (hostInterfaces st') id' = go_index (loaded (Ref.world []) file_c1) id') ∧
    (∀ data, json_Marshal_map (Ref.world []) (hostInterfaces st') = Val data →
             io_WriteFile (Ref.world []) file_c1 data = None →
             file st' = Some data).
Proof.
  apply (cmdDel_removes_entry (Ref.world []) (Ref.args "c1" Ref.conf_br0) file_c1
           {| NetConf := Ref.netconf0; PublicBridgeName := "br0" |} "veth1f3a");
    vm_compute; reflexivity.
Defined.

Ltac del_step := eapply (@bool_decide_unpack _ (del_error_dec _)); exact I.

(** X15. Whenever DEL returns an error, the state file is untouched and no
    write was made, and the error is one of three: the configuration could
    not be decoded, the delegate teardown failed, or the switch failed to
    delete the port.  Errors of the state store itself never surface. *)
Theorem cmdDel_error_leaves_file W a f e st' :
  cmdDel W a (init f) = (Ret (Some e), st') →
  del_error e ∧
  file st' = f ∧
  forallb (fun ev => negb (is_WriteFile ev)) (trace st') = true ∧
  (hostInterfaces st' = Some ∅ ∨ hostInterfaces st' = loaded W f).
Proof.
  intros H.
  destruct (json_Unmarshal_config W (skel.StdinData a)) as [config|msg] eqn:Hcfg.
  - destruct (ipam_ExecDel W (types.Type_ (types.ipam (NetConf config))) (skel.StdinData a))
      as [msg|] eqn:Hdel.
    + unfold cmdDel in H. rewrite Hcfg in H.
      unfold ipam_ExecDel_call, bind, log, ret, init in H; cbn in H. rewrite Hdel in H.
      simplify_eq. split; [del_step|]. cbn. repeat split; auto.
    + rewrite (cmdDel_run W a f config Hcfg Hdel) in H. cbv zeta in H.
      destruct (go_index (loaded W f) (skel.ContainerID a)); try discriminate.
      destruct (ovs_DeletePort W (PublicBridgeName config) s); [|discriminate].
      simplify_eq. split; [del_step|]. cbn. repeat split; auto.
  - unfold cmdDel in H. rewrite Hcfg in H. unfold ret, init in H. simplify_eq.
    split; [del_step|]. cbn. repeat split; auto.
Qed.

(** DEL for [c1] when the delegate fails. *)
Lemma cmdDel_error_leaves_file_witness :
  ∃ e st',
    cmdDel (Ref.world [Ref.BadExecDel]) (Ref.args "c1" Ref.conf_br0) (init file_c1)
      = (Ret (Some e), st') ∧
    del_error e ∧
    file st' = file_c1 ∧
    forallb (fun ev => negb (is_WriteFile ev)) (trace st') = true ∧
    (hostInterfaces st' = Some ∅ ∨
     hostInterfaces st' = loaded (Ref.world [Ref.BadExecDel]) file_c1).
Proof.
  eexists _, _. split; [vm_compute; reflexivity|].
  apply (cmdDel_error_leaves_file (Ref.world [Ref.BadExecDel])
           (Ref.args "c1" Ref.conf_br0) file_c1).
  vm_compute. reflexivity.
Defined.

(** X16. The entries are [interface{}] values: when the entry of the
    container is neither nil nor a string (a number or an object in the state
    file), the type assertion in DEL panics, after the delegate teardown and
    before any call to the switch or write of the file. *)
Theorem cmdDel_foreign_entry_panics W a f config v :
  json_Unmarshal_config W (skel.StdinData a) = Val config →
  ipam_ExecDel W (types.Type_ (types.ipam (NetConf config))) (skel.StdinData a) = None →
  go_index (loaded W f) (skel.ContainerID a) = v →
  v ≠ INil →
  (∀ s, v ≠ IString s) →
  cmdDel W a (init f) =
    (Panic "interface conversion: interface {} is not string",
     {| hostInterfaces := loaded W f; file := f;
        trace := [ EvExecDel (types.Type_ (types.ipam (NetConf config))) (skel.StdinData a);
                   EvReadFile HostInterfaceJson ] |}).
Proof.
  intros Hcfg Hdel Hent Hnil Hstr.
  rewrite (cmdDel_run W a f config Hcfg Hdel). cbv zeta. rewrite Hent.
  destruct v; try reflexivity; [congruence | exfalso; eapply Hstr; reflexivity].
Qed.

(** DEL for [c1] when the file maps [c1] to the number 5. *)
Lemma cmdDel_foreign_entry_panics_witness :
  cmdDel (with_decoder (Ref.world []) number_entry) (Ref.args "c1" Ref.conf_br0) (init file_c1)
  = (Panic "interface conversion: interface {} is not string",
     {| hostInterfaces := Some {["c1" := IFloat64 5]}; file := file_c1;
        trace := [ EvExecDel "host-local" Ref.conf_br0; EvReadFile HostInterfaceJson ] |}).
Proof.
  refine (eq_trans (cmdDel_foreign_entry_panics (with_decoder (Ref.world []) number_entry)
            (Ref.args "c1" Ref.conf_br0) file_c1
            {| NetConf := Ref.netconf0; PublicBridgeName := "br0" |} (IFloat64 5)
            _ _ _ _ _) _).
  - vm_compute. reflexivity.
  - vm_compute. reflexivity.
  - vm_compute. reflexivity.
  - discriminate.
  - discriminate.
  - vm_compute. reflexivity.
Defined.

(** X17. DEL twice, each in an invocation of its own.  The first DEL, in
    [W1], returned success (its writes going through and encoding/json giving
    back what it was given).  The second DEL for the same container starts on
    the file the first one left, in [W2]: the JSON decoders are the same
    functions, every other outside call may answer differently, the IPAM
    delegate in particular.  The file has no entry for the container.  When
    the delegate teardown succeeds again, the second DEL is a no-op that
    returns success: it calls the delegate, reads the file, and neither calls
    the switch nor writes.  When the delegate fails this time, DEL returns
    the delegate's error without reading the file. *)
Theorem cmdDel_twice W1 W2 a f st1 config :
  cmdDel W1 a (init f) = (Ret None, st1) →
  writable W1 →
  (∀ g, loaded W1 f = Some g → faithful W1 (delete (skel.ContainerID a) g)) →
  (∀ data, json_Unmarshal_map W2 data = json_Unmarshal_map W1 data) →
  json_Unmarshal_config W2 (skel.StdinData a) = json_Unmarshal_config W1 (skel.StdinData a) →
  json_Unmarshal_config W1 (skel.StdinData a) = Val config →
  let plugin := types.Type_ (types.ipam (NetConf config)) in
  go_index (loaded W2 (file st1)) (skel.ContainerID a) = INil ∧
  cmdDel W2 a (init (file st1)) =
    match ipam_ExecDel W2 plugin (skel.StdinData a) with
    | None =>
        (Ret None,
         {| hostInterfaces := loaded W2 (file st1); file := file st1;
            trace := [ EvExecDel plugin (skel.StdinData a);
                       EvReadFile HostInterfaceJson ] |})
    | Some msg =>
        (Ret (Some (LibError FromExecDel msg)),
         {| hostInterfaces := Some ∅; file := file st1;
            trace := [ EvExecDel plugin (skel.StdinData a) ] |})
    end.
Proof.
  intros H Hw Hf Hdec Hcfg2 Hcfg. cbv zeta. rewrite Hcfg in Hcfg2.
  assert (Hload : ∀ f', loaded W2 f' = loaded W1 f').
  { intros [data|]; [|reflexivity]. rewrite !loaded_file, Hdec. reflexivity. }
  assert (Hnil : go_index (loaded W2 (file st1)) (skel.ContainerID a) = INil).
  { rewrite Hload.
    destruct (ipam_ExecDel W1 (types.Type_ (types.ipam (NetConf config))) (skel.StdinData a))
      as [msg|] eqn:Hdel.
    { unfold cmdDel in H. rewrite Hcfg in H.
      unfold ipam_ExecDel_call, bind, log, ret, init in H; cbn in H. rewrite Hdel in H.
      discriminate. }
    rewrite (cmdDel_run W1 a f config Hcfg Hdel) in H. cbv zeta in H.
    destruct (go_index (loaded W1 f) (skel.ContainerID a)) eqn:Hent; try discriminate.
    - simplify_eq. exact Hent.
    - destruct (ovs_DeletePort W1 (PublicBridgeName config) s); [discriminate|].
      simplify_eq. cbn.
      destruct (loaded W1 f) as [g|] eqn:Hl; [|discriminate].
      destruct (Hf g eq_refl) as (data & kvs & Hm & Hu & Hk).
      unfold saved. cbn. rewrite write_spec, Hm, (Hw f data). cbn.
      rewrite (loaded_faithful W1 _ data kvs Hu Hk). cbn.
      rewrite lookup_delete_eq. reflexivity. }
  split; [exact Hnil|].
  destruct (ipam_ExecDel W2 (types.Type_ (types.ipam (NetConf config))) (skel.StdinData a))
    as [msg|] eqn:Hdel2.
  - unfold cmdDel. rewrite Hcfg2.
    unfold ipam_ExecDel_call, bind, log, ret, init; cbn. rewrite Hdel2. reflexivity.
  - rewrite (cmdDel_run W2 a (file st1) config Hcfg2 Hdel2). cbv zeta. rewrite Hnil.
    reflexivity.
Qed.

(** A second DEL for [c1], the delegate failing this time. *)
Lemma cmdDel_twice_witness :
  let W2 := Ref.world [Ref.BadExecDel] in
  let config := {| NetConf := Ref.netconf0; PublicBridgeName := "br0" |} in
  let plugin := types.Type_ (types.ipam (NetConf config)) in
  go_index (loaded W2 (Some (Ref.bs "{}"))) "c1" = INil ∧
  cmdDel W2 (Ref.args "c1" Ref.conf_br0) (init (Some (Ref.bs "{}"))) =
    match ipam_ExecDel W2 plugin Ref.conf_br0 with
    | None =>
        (Ret None,
         {| hostInterfaces := loaded W2 (Some (Ref.bs "{}")); file := Some (Ref.bs "{}");
            trace := [ EvExecDel plugin Ref.conf_br0; EvReadFile HostInterfaceJson ] |})
    | Some msg =>
        (Ret (Some (LibError FromExecDel msg)),
         {| hostInterfaces := Some ∅; file := Some (Ref.bs "{}");
            trace := [ EvExecDel plugin Ref.conf_br0 ] |})
    end.
Proof.
  apply (cmdDel_twice (Ref.world []) (Ref.world [Ref.BadExecDel])
           (Ref.args "c1" Ref.conf_br0) file_c1
           {| hostInterfaces := Some ∅; file := Some (Ref.bs "{}");
              trace := [ EvExecDel "host-local" Ref.conf_br0; EvReadFile HostInterfaceJson;
                         EvDeletePort "br0" "veth1f3a";
                         EvWriteFile HostInterfaceJson (Ref.bs "{}") 420 ] |}
           {| NetConf := Ref.netconf0; PublicBridgeName := "br0" |}).
  - vm_compute. reflexivity.
  - intros old data. reflexivity.
  - intros g Hg. assert (g = {["c1" := IString "veth1f3a"]}) as ->.
    { vm_compute in Hg. injection Hg as <-. reflexivity. }
    eexists _, _. repeat split; vm_compute; reflexivity.
  - intros data. reflexivity.
  - reflexivity.
  - vm_compute. reflexivity.
Defined.

(** ** More on ADD *)

Lemma associate_IPs_same ips ips' :
  associate_IPs ips = Some ips' → Forall2 same_address ips ips'.
Proof.
  revert ips'. induction ips as [|[ip|] rest IH]; intros ips' H; simpl in H.
  - inversion H; subst. constructor.
  - destruct (associate_IPs rest) as [rest'|] eqn:E; [|discriminate].
    inversion H; subst. constructor; [|apply IH; reflexivity].
    cbn. repeat split.
  - discriminate.
Qed.

(** An ADD that got as far as the store update, read backwards. *)
Lemma cmdAdd_stored_inv W a f r st' :
  cmdAdd W a (init f) = (Ret r, st') →
  (∀ e, r = Some e → ∃ msg, e = LibError FromPrintResult msg) →
  ∃ config netns hostVeth contVeth res result ips g0,
    json_Unmarshal_config W (skel.StdinData a) = Val config ∧
    ns_GetNS W (skel.Netns a) = Val netns ∧
    ip_SetupVeth W (skel.IfName a) DefaultMTU (ns_hostNS W) = Val (hostVeth, contVeth) ∧
    ipam_ExecAdd W (types.Type_ (types.ipam (NetConf config))) (skel.StdinData a) = Val res ∧
    current_NewResultFromResult W res = Val result ∧
    associate_IPs (current.IPs result) = Some ips ∧
    (ovs_AddBridge W (PublicBridgeName config) = None ∧
     ns_Do_switch W netns = None ∧
     ovs_AddPort W (PublicBridgeName config) (net.Name hostVeth) = None) ∧
    loaded W f = Some g0 ∧
    hostInterfaces st' = Some (<[skel.ContainerID a := IString (net.Name hostVeth)]> g0) ∧
    file st' = saved W (hostInterfaces st') f ∧
    let contIface := {| current.Name := net.Name contVeth;
                        current.Mac := net.HardwareAddr contVeth;
                        current.Sandbox := ns.Path netns |} in
    let applied := {| current.CNIVersion := current.CNIVersion result;
                      current.Interfaces := [Some contIface]; current.IPs := ips;
                      current.Routes := current.Routes result;
                      current.DNS := current.DNS result |} in
    let final := {| current.CNIVersion := current.CNIVersion result;
                    current.Interfaces := [Some contIface]; current.IPs := ips;
                    current.Routes := current.Routes result;
                    current.DNS := types.dns (NetConf config) |} in
    r = (LibError FromPrintResult <$>
           types_PrintResult W final (types.CNIVersion (NetConf config))) ∧
    trace st' =
      [ EvAddBridge (PublicBridgeName config);
        EvGetNS (skel.Netns a);
        EvNsDo netns;
        EvSetupVeth (skel.IfName a) DefaultMTU (ns_hostNS W);
        EvAddPort (PublicBridgeName config) (net.Name hostVeth);
        EvExecAdd (types.Type_ (types.ipam (NetConf config))) (skel.StdinData a);
        EvNsDo netns;
        EvConfigureIface (net.Name contVeth) applied;
        EvReadFile HostInterfaceJson ]
      ++ write_calls W (hostInterfaces st') f
      ++ [ EvPrintResult final (types.CNIVersion (NetConf config)); EvNsClose netns ].
Proof.
  intros H Hr. unfold cmdAdd, init in H. unfold_plugin. unfold_calls.
  paths H.
  all: try (destruct (Hr _ eq_refl) as [? ?]; discriminate).
  all: do 8 eexists; repeat split; try eassumption; try reflexivity.
  all: unfold loaded, saved, write_calls, init;
    rewrite ?read_no_file, ?read_file, ?write_spec; cbn; use_eqs; cbn; try reflexivity.
Qed.

Lemma success_is_stored (r : option error) :
  r = None → ∀ e, r = Some e → ∃ msg, e = LibError FromPrintResult msg.
Proof. intros -> e He. discriminate. Qed.

(** X6. The outside calls of a successful ADD, in order: create the bridge,
    open the namespace, enter it and set up the veth pair with MTU 1500,
    attach the host end to the bridge, run the IPAM delegate named in the
    configuration on the original stdin payload, enter the namespace again
    and configure the container interface, read the state file, write it
    (one [ioutil.WriteFile] of the encoding of the mapping to the state file
    with mode 0644; the call is left out only when [json.Marshal] fails,
    which [cmdAdd] does not notice), print the result under the
    configuration's CNI version, close the namespace. *)
Theorem cmdAdd_success_calls W a f st' :
  cmdAdd W a (init f) = (Ret None, st') →
  ∃ config netns hostVeth contVeth applied final,
    json_Unmarshal_config W (skel.StdinData a) = Val config ∧
    ns_GetNS W (skel.Netns a) = Val netns ∧
    ip_SetupVeth W (skel.IfName a) DefaultMTU (ns_hostNS W) = Val (hostVeth, contVeth) ∧
    trace st' =
      [ EvAddBridge (PublicBridgeName config);
        EvGetNS (skel.Netns a);
        EvNsDo netns;
        EvSetupVeth (skel.IfName a) 1500 (ns_hostNS W);
        EvAddPort (PublicBridgeName config) (net.Name hostVeth);
        EvExecAdd (types.Type_ (types.ipam (NetConf config))) (skel.StdinData a);
        EvNsDo netns;
        EvConfigureIface (net.Name contVeth) applied;
        EvReadFile HostInterfaceJson ]
      ++ match json_Marshal_map W (hostInterfaces st') with
         | Val data => [EvWriteFile HostInterfaceJson data 420]
         | Fail _ => []
         end
      ++ [ EvPrintResult final (types.CNIVersion (NetConf config)); EvNsClose netns ].
Proof.
  intros H.
  destruct (cmdAdd_stored_inv _ _ _ _ _ H (success_is_stored _ eq_refl))
    as (config & netns & hostVeth & contVeth & res & result & ips & g0 &
        Hcfg & Hns & Hveth & Hipam & Hconv & Hips & Hok & Hl & Hg & Hfile & Hr & Htr).
  exists config, netns, hostVeth, contVeth. eexists _, _.
  split; [exact Hcfg|]. split; [exact Hns|]. split; [exact Hveth|].
  rewrite Htr. do 2 f_equal. unfold write_calls. rewrite write_spec.
  destruct (json_Marshal_map W (hostInterfaces st')) as [data|]; [|reflexivity].
  destruct (io_WriteFile W f data) as [[? ?]|]; reflexivity.
Qed.

(** The calls of the first ADD for [c1]. *)
Lemma cmdAdd_success_calls_witness :
  ∃ config netns hostVeth contVeth applied final,
    json_Unmarshal_config (Ref.world []) Ref.conf_br0 = Val config ∧
    ns_GetNS (Ref.world []) "/var/run/netns/c1" = Val netns ∧
    ip_SetupVeth (Ref.world []) "eth0" DefaultMTU (ns_hostNS (Ref.world []))
      = Val (hostVeth, contVeth) ∧
    trace st_added =
      [ EvAddBridge (PublicBridgeName config);
        EvGetNS "/var/run/netns/c1";
        EvNsDo netns;
        EvSetupVeth "eth0" 1500 (ns_hostNS (Ref.world []));
        EvAddPort (PublicBridgeName config) (net.Name hostVeth);
        EvExecAdd (types.Type_ (types.ipam (NetConf config))) Ref.conf_br0;
        EvNsDo netns;
        EvConfigureIface (net.Name contVeth) applied;
        EvReadFile HostInterfaceJson ]
      ++ match json_Marshal_map (Ref.world []) (hostInterfaces st_added) with
         | Val data => [EvWriteFile HostInterfaceJson data 420]
         | Fail _ => []
         end
      ++ [ EvPrintResult final (types.CNIVersion (NetConf config)); EvNsClose netns ].
Proof.
  apply (cmdAdd_success_calls (Ref.world []) (Ref.args "c1" Ref.conf_br0) None).
  vm_compute. reflexivity.
Defined.

(** X7. The result a successful ADD emits is the delegate's result passed
    through: same CNI version, same routes, and IP entry by IP entry the same
    version, address and gateway (only the interface index, the interface
    list and the DNS settings are the plugin's). *)
Theorem cmdAdd_passes_delegate_result W a f st' :
  cmdAdd W a (init f) = (Ret None, st') →
  ∃ config res result final,
    json_Unmarshal_config W (skel.StdinData a) = Val config ∧
    ipam_ExecAdd W (types.Type_ (types.ipam (NetConf config))) (skel.StdinData a) = Val res ∧
    current_NewResultFromResult W res = Val result ∧
    emitted (trace st') = [final] ∧
    current.CNIVersion final = current.CNIVersion result ∧
    current.Routes final = current.Routes result ∧
    Forall2 same_address (current.IPs result) (current.IPs final).
Proof.
  intros H.
  destruct (cmdAdd_success_inv _ _ _ _ H)
    as (config & netns & hostVeth & contVeth & r & result & ips &
        Hcfg & Hns & Hveth & Hipam & Hconv & Hne & Hips & Hem & Hst & Hfile).
  exists config, r, result. eexists.
  split; [exact Hcfg|]. split; [exact Hipam|]. split; [exact Hconv|].
  split; [exact Hem|]. cbn. split; [reflexivity|]. split; [reflexivity|].
  apply associate_IPs_same. exact Hips.
Qed.

(** The result of the first ADD for [c1] against the delegate's. *)
Lemma cmdAdd_passes_delegate_result_witness :
  ∃ config res result final,
    json_Unmarshal_config (Ref.world []) Ref.conf_br0 = Val config ∧
    ipam_ExecAdd (Ref.world []) (types.Type_ (types.ipam (NetConf config))) Ref.conf_br0
      = Val res ∧
    current_NewResultFromResult (Ref.world []) res = Val result ∧
    emitted (trace st_added) = [final] ∧
    current.CNIVersion final = current.CNIVersion result ∧
    current.Routes final = current.Routes result ∧
    Forall2 same_address (current.IPs result) (current.IPs final).
Proof.
  apply (cmdAdd_passes_delegate_result (Ref.world []) (Ref.args "c1" Ref.conf_br0) None).
  vm_compute. reflexivity.
Defined.

Lemma go_index_insert (g : gmap string iface) k v k' :
  go_index (Some (<[k := v]> g)) k' = if decide (k = k') then v else go_index (Some g) k'.
Proof.
  cbn. rewrite lookup_insert. destruct (decide (k = k')); reflexivity.
Qed.

(** X8. A successful ADD leaves the entries of all other containers as the
    state file had them. *)
Theorem cmdAdd_keeps_other_entries W a f st' :
  cmdAdd W a (init f) = (Ret None, st') →
  ∀ id', id' ≠ skel.ContainerID a →
         go_index (hostInterfaces st') id' = go_index (loaded W f) id'.
Proof.
  intros H id' Hne.
  destruct (cmdAdd_stored_inv _ _ _ _ _ H (success_is_stored _ eq_refl))
    as (config & netns & hostVeth & contVeth & res & result & ips & g0 &
        Hcfg & Hns & Hveth & Hipam & Hconv & Hips & Hok & Hl & Hg & Hfile & Hr & Htr).
  rewrite Hg, Hl, go_index_insert. rewrite decide_False by congruence. reflexivity.
Qed.

(** ADD for [c1] on a store that holds [c0]. *)
Lemma cmdAdd_keeps_other_entries_witness :
  go_index (hostInterfaces
              (snd (cmdAdd (Ref.world []) (Ref.args "c1" Ref.conf_br0) (init file_c0)))) "c0"
  = go_index (loaded (Ref.world []) file_c0) "c0".
Proof.
  apply (cmdAdd_keeps_other_entries (Ref.world []) (Ref.args "c1" Ref.conf_br0) file_c0).
  - vm_compute. reflexivity.
  - discriminate.
Defined.

(** X10. An ADD that fails in [types.PrintResult] has already done
    everything else: the port is attached, the container's entry is in the
    mapping (and in the file when the write went through), and nothing is
    undone, although the caller is told that ADD failed. *)
Theorem cmdAdd_print_failure_keeps_entry W a f msg st' :
  cmdAdd W a (init f) = (Ret (Some (LibError FromPrintResult msg)), st') →
  ∃ hostVeth contVeth g,
    ip_SetupVeth W (skel.IfName a) DefaultMTU (ns_hostNS W) = Val (hostVeth, contVeth) ∧
    hostInterfaces st' = Some g ∧
    g !! skel.ContainerID a = Some (IString (net.Name hostVeth)) ∧
    existsb is_AddPort (trace st') = true ∧
    forallb (fun ev => negb (is_teardown ev)) (trace st') = true ∧
    (∀ data, json_Marshal_map W (Some g) = Val data →
             io_WriteFile W f data = None →
             file st' = Some data).
Proof.
  intros H.
  assert (Hr : ∀ e, Some (LibError FromPrintResult msg) = Some e →
                    ∃ m, e = LibError FromPrintResult m).
  { intros e He. injection He as <-. eauto. }
  destruct (cmdAdd_stored_inv _ _ _ _ _ H Hr)
    as (config & netns & hostVeth & contVeth & res & result & ips & g0 &
        Hcfg & Hns & Hveth & Hipam & Hconv & Hips & Hok & Hl & Hg & Hfile & Hret & Htr).
  exists hostVeth, contVeth. eexists.
  split; [exact Hveth|]. split; [exact Hg|]. split; [apply lookup_insert_eq|].
  assert (Hwc : forallb (fun ev => negb (is_teardown ev))
                        (write_calls W (hostInterfaces st') f) = true ∧
                True).
  { split; [|exact I]. unfold write_calls. rewrite write_spec.
    destruct (json_Marshal_map W _) as [data|]; [|reflexivity].
    destruct (io_WriteFile W f data) as [[? ?]|]; reflexivity. }
  split. { rewrite Htr. reflexivity. }
  split. { rewrite Htr. cbn. rewrite forallb_app. rewrite (proj1 Hwc). reflexivity. }
  intros data Hm Hw. rewrite Hfile, Hg. unfold saved. rewrite write_spec, Hm, Hw. reflexivity.
Qed.

(** ADD for [c1] when the result cannot be printed. *)
Lemma cmdAdd_print_failure_keeps_entry_witness :
  ∃ hostVeth contVeth g,
    let st' := snd (cmdAdd (Ref.world [Ref.BadPrintResult])
                           (Ref.args "c1" Ref.conf_br0) (init None)) in
    ip_SetupVeth (Ref.world [Ref.BadPrintResult]) "eth0" DefaultMTU
                 (ns_hostNS (Ref.world [Ref.BadPrintResult])) = Val (hostVeth, contVeth) ∧
    hostInterfaces st' = Some g ∧
    g !! "c1" = Some (IString (net.Name hostVeth)) ∧
    existsb is_AddPort (trace st') = true ∧
    forallb (fun ev => negb (is_teardown ev)) (trace st') = true ∧
    (∀ data, json_Marshal_map (Ref.world [Ref.BadPrintResult]) (Some g) = Val data →
             io_WriteFile (Ref.world [Ref.BadPrintResult]) None data = None →
             file st' = Some data).
Proof.
  apply (cmdAdd_print_failure_keeps_entry (Ref.world [Ref.BadPrintResult])
           (Ref.args "c1" Ref.conf_br0) None "broken pipe").
  vm_compute. reflexivity.
Defined.

(** X11. ADD can panic in two places only: on a nil element of the
    delegate's IP list, and on the store assignment when the state file is
    the JSON [null] (the load sets the map to nil).  Either way the port is
    already attached and is not detached, the state file is untouched and
    was not written, and the deferred close of the namespace is the last
    call. *)
Theorem cmdAdd_panic_leaves_file W a f msg st' :
  cmdAdd W a (init f) = (Panic msg, st') →
  (msg = "invalid memory address or nil pointer dereference" ∧ hostInterfaces st' = Some ∅ ∨
   msg = "assignment to entry in nil map" ∧ hostInterfaces st' = None) ∧
  file st' = f ∧
  forallb (fun ev => negb (is_WriteFile ev)) (trace st') = true ∧
  existsb is_AddPort (trace st') = true ∧
  forallb (fun ev => negb (is_teardown ev)) (trace st') = true ∧
  ∃ netns, ns_GetNS W (skel.Netns a) = Val netns ∧
           last (trace st') = Some (EvNsClose netns).
Proof.
  intros H. unfold cmdAdd, init in H. unfold_plugin. unfold_calls.
  paths H.
  all: split; [first [left; split; reflexivity | right; split; reflexivity]|].
  all: repeat (split; [reflexivity|]).
  all: eexists; split; reflexivity.
Qed.

(** ADD for [c1] on a state file that holds [null]. *)
Lemma cmdAdd_panic_leaves_file_witness :
  let st' := snd (cmdAdd (Ref.world []) (Ref.args "c1" Ref.conf_br0)
                         (init (Some (Ref.bs "null")))) in
  ("assignment to entry in nil map" = "invalid memory address or nil pointer dereference"
     ∧ hostInterfaces st' = Some ∅ ∨
   "assignment to entry in nil map" = "assignment to entry in nil map"
     ∧ hostInterfaces st' = None) ∧
  file st' = Some (Ref.bs "null") ∧
  forallb (fun ev => negb (is_WriteFile ev)) (trace st') = true ∧
  existsb is_AddPort (trace st') = true ∧
  forallb (fun ev => negb (is_teardown ev)) (trace st') = true ∧
  ∃ netns, ns_GetNS (Ref.world []) "/var/run/netns/c1" = Val netns ∧
           last (trace st') = Some (EvNsClose netns).
Proof.
  apply (cmdAdd_panic_leaves_file (Ref.world []) (Ref.args "c1" Ref.conf_br0)
           (Some (Ref.bs "null")) "assignment to entry in nil map").
  vm_compute. reflexivity.
Defined.

(** X12. Once ADD has opened the namespace it closes it exactly once, as
    its last call, on every path: success, every error return and both
    panics. *)
Theorem cmdAdd_closes_namespace W a f config netns :
  json_Unmarshal_config W (skel.StdinData a) = Val config →
  ovs_AddBridge W (PublicBridgeName config) = None →
  ns_GetNS W (skel.Netns a) = Val netns →
  last (trace (snd (cmdAdd W a (init f)))) = Some (EvNsClose netns) ∧
  calls is_NsClose (trace (snd (cmdAdd W a (init f)))) = 1.
Proof.
  intros Hcfg Hbr Hns. unfold cmdAdd. rewrite Hcfg. unfold init. unfold_plugin. unfold_calls.
  cbn. rewrite Hbr. cbn. rewrite Hns. unfold calls.
  repeat (cbn; try branch_goal); split; reflexivity.
Qed.

(** ADD for [c1] when the delegate fails. *)
Lemma cmdAdd_closes_namespace_witness :
  last (trace (snd (cmdAdd (Ref.world [Ref.BadExecAdd]) (Ref.args "c1" Ref.conf_br0)
                           (init None))))
    = Some (EvNsClose {| ns.Path := "/var/run/netns/c1" |}) ∧
  calls is_NsClose (trace (snd (cmdAdd (Ref.world [Ref.BadExecAdd])
                                       (Ref.args "c1" Ref.conf_br0) (init None)))) = 1.
Proof.
  apply (cmdAdd_closes_namespace (Ref.world [Ref.BadExecAdd]) (Ref.args "c1" Ref.conf_br0) None
           {| NetConf := Ref.netconf0; PublicBridgeName := "br0" |}
           {| ns.Path := "/var/run/netns/c1" |}); vm_compute; reflexivity.
Defined.

(** X13. No rollback, no cross-over: whatever happens, ADD never deletes a
    port and never calls the delegate teardown, and DEL never creates a
    bridge or a port, never enters a namespace, and never configures or
    prints a result. *)
Theorem commands_keep_to_their_calls W a f :
  forallb (fun ev => negb (is_teardown ev)) (trace (snd (cmdAdd W a (init f)))) = true ∧
  forallb (fun ev => negb (is_setup ev)) (trace (snd (cmdDel W a (init f)))) = true.
Proof.
  split.
  - unfold cmdAdd, init. unfold_plugin. unfold_calls.
    repeat (cbn; try branch_goal); reflexivity.
  - unfold cmdDel, init. unfold_plugin. unfold_calls.
    repeat (cbn; try branch_goal); reflexivity.
Qed.

(** X4. [createVeth], when it succeeds: the namespace switch succeeded and
    [ip.SetupVeth] was called once, with MTU 1500 and the host namespace; the
    host descriptor carries the host veth's name only (no MAC, no sandbox),
    the container descriptor the container veth's name and MAC and the path
    of the namespace; the store and the state file are untouched. *)
Theorem createVeth_descriptors W netns ifName st hostIface contIface st' :
  createVeth W netns ifName st = (Ret (Val (hostIface, contIface)), st') →
  ∃ hostVeth contVeth,
    ns_Do_switch W netns = None ∧
    ip_SetupVeth W ifName 1500 (ns_hostNS W) = Val (hostVeth, contVeth) ∧
    hostIface = {| current.Name := net.Name hostVeth;
                   current.Mac := EmptyString; current.Sandbox := EmptyString |} ∧
    contIface = {| current.Name := net.Name contVeth;
                   current.Mac := net.HardwareAddr contVeth;
                   current.Sandbox := ns.Path netns |} ∧
    hostInterfaces st' = hostInterfaces st ∧
    file st' = file st ∧
    trace st' = trace st ++ [EvNsDo netns; EvSetupVeth ifName 1500 (ns_hostNS W)].
Proof.
  intros H. unfold createVeth in H. unfold_calls. destruct st as [g f tr].
  paths H. eexists _, _. repeat split; try eassumption.
  all: cbn; rewrite <- ?app_assoc; reflexivity.
Qed.

(** The veth pair of [c1] in the reference world. *)
Lemma createVeth_descriptors_witness :
  ∃ hostIface contIface st',
    createVeth (Ref.world []) {| ns.Path := "/var/run/netns/c1" |} "eth0" (init None)
      = (Ret (Val (hostIface, contIface)), st') ∧
    ∃ hostVeth contVeth,
      ns_Do_switch (Ref.world []) {| ns.Path := "/var/run/netns/c1" |} = None ∧
      ip_SetupVeth (Ref.world []) "eth0" 1500 (ns_hostNS (Ref.world []))
        = Val (hostVeth, contVeth) ∧
      hostIface = {| current.Name := net.Name hostVeth;
                     current.Mac := EmptyString; current.Sandbox := EmptyString |} ∧
      contIface = {| current.Name := net.Name contVeth;
                     current.Mac := net.HardwareAddr contVeth;
                     current.Sandbox := "/var/run/netns/c1" |} ∧
      hostInterfaces st' = Some ∅ ∧
      file st' = None ∧
      trace st' = [] ++ [EvNsDo {| ns.Path := "/var/run/netns/c1" |};
                         EvSetupVeth "eth0" 1500 (ns_hostNS (Ref.world []))].
Proof.
  eexists _, _, _. split; [vm_compute; reflexivity|].
  apply (createVeth_descriptors (Ref.world []) {| ns.Path := "/var/run/netns/c1" |} "eth0"
           (init None)).
  vm_compute. reflexivity.
Defined.

(** X18. DEL undoes what ADD recorded.  After a successful ADD (writes going
    through, encoding/json giving back what it was given), a DEL for the same
    container in the next process, when the delegate and the switch succeed,
    deletes from the same bridge the port named by the host interface that
    ADD created, and leaves the mapping the state file had before the ADD,
    without the container. *)
Theorem cmdDel_undoes_cmdAdd W a f st1 :
  cmdAdd W a (init f) = (Ret None, st1) →
  writable W →
  (∀ g, hostInterfaces st1 = Some g → faithful W g) →
  ∃ config hostVeth contVeth g0,
    json_Unmarshal_config W (skel.StdinData a) = Val config ∧
    ip_SetupVeth W (skel.IfName a) DefaultMTU (ns_hostNS W) = Val (hostVeth, contVeth) ∧
    loaded W f = Some g0 ∧
    (ipam_ExecDel W (types.Type_ (types.ipam (NetConf config))) (skel.StdinData a) = None →
     ovs_DeletePort W (PublicBridgeName config) (net.Name hostVeth) = None →
     ∃ st2,
       cmdDel W a (init (file st1)) = (Ret None, st2) ∧
       trace st2 =
         [ EvExecDel (types.Type_ (types.ipam (NetConf config))) (skel.StdinData a);
           EvReadFile HostInterfaceJson;
           EvDeletePort (PublicBridgeName config) (net.Name hostVeth) ]
         ++ write_calls W (hostInterfaces st2) (file st1) ∧
       hostInterfaces st2 = Some (delete (skel.ContainerID a) g0)).
Proof.
  intros H Hw Hf.
  destruct (cmdAdd_stored_inv _ _ _ _ _ H (success_is_stored _ eq_refl))
    as (config & netns & hostVeth & contVeth & res & result & ips & g0 &
        Hcfg & Hns & Hveth & Hipam & Hconv & Hips & Hok & Hl & Hg & Hfile & Hr & Htr).
  exists config, hostVeth, contVeth, g0.
  split; [exact Hcfg|]. split; [exact Hveth|]. split; [exact Hl|].
  intros Hdel Hport.
  destruct (Hf _ Hg) as (data & kvs & Hm & Hu & Hk).
  assert (Hfile1 : file st1 = Some data).
  { rewrite Hfile, Hg. unfold saved. rewrite write_spec, Hm, (Hw f data). reflexivity. }
  assert (Hl1 : loaded W (file st1)
                = Some (<[skel.ContainerID a := IString (net.Name hostVeth)]> g0)).
  { rewrite Hfile1. apply (loaded_faithful W _ data kvs Hu Hk). }
  eexists. rewrite (cmdDel_run W a (file st1) config Hcfg Hdel). cbv zeta.
  rewrite Hl1. cbn. rewrite lookup_insert_eq. cbn. rewrite Hport.
  split; [reflexivity|]. cbn. split; [reflexivity|].
  rewrite delete_insert_eq. reflexivity.
Qed.

(** ADD for [c1], then DEL for [c1]. *)
Lemma cmdDel_undoes_cmdAdd_witness :
  ∃ config hostVeth contVeth g0,
    json_Unmarshal_config (Ref.world []) Ref.conf_br0 = Val config ∧
    ip_SetupVeth (Ref.world []) "eth0" DefaultMTU (ns_hostNS (Ref.world []))
      = Val (hostVeth, contVeth) ∧
    loaded (Ref.world []) None = Some g0 ∧
    (ipam_ExecDel (Ref.world []) (types.Type_ (types.ipam (NetConf config))) Ref.conf_br0
       = None →
     ovs_DeletePort (Ref.world []) (PublicBridgeName config) (net.Name hostVeth) = None →
     ∃ st2,
       cmdDel (Ref.world []) (Ref.args "c1" Ref.conf_br0) (init (file st_added))
         = (Ret None, st2) ∧
       trace st2 =
         [ EvExecDel (types.Type_ (types.ipam (NetConf config))) Ref.conf_br0;
           EvReadFile HostInterfaceJson;
           EvDeletePort (PublicBridgeName config) (net.Name hostVeth) ]
         ++ write_calls (Ref.world []) (hostInterfaces st2) (file st_added) ∧
       hostInterfaces st2 = Some (delete "c1" g0)).
Proof.
  apply (cmdDel_undoes_cmdAdd (Ref.world []) (Ref.args "c1" Ref.conf_br0) None st_added).
  - vm_compute. reflexivity.
  - intros old data. reflexivity.
  - intros g Hg. assert (g = {["c1" := IString "veth1f3a"]}) as ->.
    { vm_compute in Hg. injection Hg as <-. reflexivity. }
    eexists _, _. repeat split; vm_compute; reflexivity.
Defined.

(** ** More on src/rainier.go *)

(** The earlier ADD, read backwards from its success. *)
Lemma legacy_cmdAdd_inv W a f st' :
  RainierGo.cmdAdd W a (init f) = (Ret None, st') →
  ∃ config netns hostVeth contVeth g0,
    json_Unmarshal_config W (skel.StdinData a) = Val config ∧
    ns_GetNS W (skel.Netns a) = Val netns ∧
    ip_SetupVeth W (skel.IfName a) DefaultMTU (ns_hostNS W) = Val (hostVeth, contVeth) ∧
    loaded W f = Some g0 ∧
    hostInterfaces st' = Some (<[skel.ContainerID a := IString (net.Name hostVeth)]> g0) ∧
    file st' = saved W (hostInterfaces st') f ∧
    trace st' =
      [ EvAddBridge (PublicBridgeName config);
        EvGetNS (skel.Netns a);
        EvNsDo netns;
        EvSetupVeth (skel.IfName a) DefaultMTU (ns_hostNS W);
        EvAddPort (PublicBridgeName config) (net.Name hostVeth);
        EvReadFile HostInterfaceJson ]
      ++ write_calls W (hostInterfaces st') f
      ++ [ EvNsClose netns ].
Proof.
  intros H. unfold RainierGo.cmdAdd, init in H. unfold_plugin. unfold_calls.
  paths H.
  all: do 5 eexists; repeat split; try eassumption; try reflexivity.
  all: unfold loaded, saved, write_calls, init;
    rewrite ?read_no_file, ?read_file, ?write_spec; cbn; use_eqs; cbn; try reflexivity.
Qed.

(** The earlier ADD when its steps succeed. *)
Lemma legacy_cmdAdd_run W a f config netns hostVeth contVeth g0 :
  json_Unmarshal_config W (skel.StdinData a) = Val config →
  ovs_AddBridge W (PublicBridgeName config) = None →
  ns_GetNS W (skel.Netns a) = Val netns →
  ns_Do_switch W netns = None →
  ip_SetupVeth W (skel.IfName a) DefaultMTU (ns_hostNS W) = Val (hostVeth, contVeth) →
  ovs_AddPort W (PublicBridgeName config) (net.Name hostVeth) = None →
  loaded W f = Some g0 →
  let g := Some (<[skel.ContainerID a := IString (net.Name hostVeth)]> g0) in
  ∃ st', RainierGo.cmdAdd W a (init f) = (Ret None, st') ∧
         hostInterfaces st' = g ∧
         file st' = saved W g f.
Proof.
  intros Hcfg Hbr Hns Hsw Hveth Hport Hl g.
  unfold RainierGo.cmdAdd. rewrite Hcfg. unfold createVeth, createOvsBr, addOvsPort, init.
  unfold VSwitch_AddBridge, VSwitch_AddPort, ns_GetNS_call, NetNS_Close, NetNS_Do,
    ip_SetupVeth_call, hostInterfaces_assign, defer, bind, ret, log.
  cbn. rewrite Hbr. cbn. rewrite Hns. cbn. rewrite Hsw. cbn. rewrite Hveth. cbn.
  rewrite Hport. cbn.
  match goal with
  | |- context [readHostInterfacesFromFile W
                  {| hostInterfaces := _; file := _; trace := ?tr |}] =>
      destruct (read_after W f tr) as [rr ->]
  end.
  cbn. rewrite Hl. cbn. rewrite write_frame.
  destruct (write_returns W {| hostInterfaces := Some (<[skel.ContainerID a :=
                                 IString (net.Name hostVeth)]> g0);
                              file := f; trace := [] |}) as [r' ->].
  cbn. eauto.
Qed.

(** X20. The earlier ADD, when it returns success: the mapping holds the
    container's entry with the host veth's name, the other entries are as the
    file had them, no IPAM or result call and no teardown was made, and the
    file is the encoding of the mapping whenever the write went through. *)
Theorem legacy_cmdAdd_records_entry W a f st' :
  RainierGo.cmdAdd W a (init f) = (Ret None, st') →
  ∃ hostVeth contVeth g,
    ip_SetupVeth W (skel.IfName a) DefaultMTU (ns_hostNS W) = Val (hostVeth, contVeth) ∧
    hostInterfaces st' = Some g ∧
    g !! skel.ContainerID a = Some (IString (net.Name hostVeth)) ∧
    (∀ id', id' ≠ skel.ContainerID a →
            go_index (hostInterfaces st') id' = go_index (loaded W f) id') ∧
    forallb (fun ev => negb (is_ipam ev || is_teardown ev)) (trace st') = true ∧
    (∀ data, json_Marshal_map W (Some g) = Val data →
             io_WriteFile W f data = None →
             file st' = Some data).
Proof.
  intros H.
  destruct (legacy_cmdAdd_inv _ _ _ _ H)
    as (config & netns & hostVeth & contVeth & g0 &
        Hcfg & Hns & Hveth & Hl & Hg & Hfile & Htr).
  exists hostVeth, contVeth. eexists.
  split; [exact Hveth|]. split; [exact Hg|]. split; [apply lookup_insert_eq|].
  split.
  { intros id' Hne. rewrite Hg, Hl, go_index_insert. rewrite decide_False by congruence.
    reflexivity. }
  split.
  { rewrite Htr. cbn. rewrite forallb_app. unfold write_calls. rewrite write_spec.
    destruct (json_Marshal_map W _) as [data|]; [|reflexivity].
    destruct (io_WriteFile W f data) as [[? ?]|]; reflexivity. }
  intros data Hm Hw. rewrite Hfile, Hg. unfold saved. rewrite write_spec, Hm, Hw. reflexivity.
Qed.

(** The earlier ADD for [c1] on a store that holds [c0]. *)
Lemma legacy_cmdAdd_records_entry_witness :
  ∃ hostVeth contVeth g,
    let st' := snd (RainierGo.cmdAdd (Ref.world []) (Ref.args "c1" Ref.conf_br0)
                                     (init file_c0)) in
    ip_SetupVeth (Ref.world []) "eth0" DefaultMTU (ns_hostNS (Ref.world []))
      = Val (hostVeth, contVeth) ∧
    hostInterfaces st' = Some g ∧
    g !! "c1" = Some (IString (net.Name hostVeth)) ∧
    (∀ id', id' ≠ "c1" →
            go_index (hostInterfaces st') id' = go_index (loaded (Ref.world []) file_c0) id') ∧
    forallb (fun ev => negb (is_ipam ev || is_teardown ev)) (trace st') = true ∧
    (∀ data, json_Marshal_map (Ref.world []) (Some g) = Val data →
             io_WriteFile (Ref.world []) file_c0 data = None →
             file st' = Some data).
Proof.
  apply (legacy_cmdAdd_records_entry (Ref.world []) (Ref.args "c1" Ref.conf_br0) file_c0).
  vm_compute. reflexivity.
Defined.

(** X22. The two versions of ADD agree on the store: in any world where
    the ADD with IPAM succeeds, the earlier ADD succeeds as well and leaves
    the same mapping and the same state file. *)
Theorem versions_agree_on_add W a f st' :
  cmdAdd W a (init f) = (Ret None, st') →
  ∃ st0,
    RainierGo.cmdAdd W a (init f) = (Ret None, st0) ∧
    hostInterfaces st0 = hostInterfaces st' ∧
    file st0 = file st'.
Proof.
  intros H.
  destruct (cmdAdd_stored_inv _ _ _ _ _ H (success_is_stored _ eq_refl))
    as (config & netns & hostVeth & contVeth & res & result & ips & g0 &
        Hcfg & Hns & Hveth & Hipam & Hconv & Hips & (Hbr & Hsw & Hport) & Hl & Hg & Hfile &
        Hr & Htr).
  destruct (legacy_cmdAdd_run W a f config netns hostVeth contVeth g0
              Hcfg Hbr Hns Hsw Hveth Hport Hl) as (st0 & Hrun & Hg0 & Hf0).
  exists st0. split; [exact Hrun|]. split; [congruence|].
  rewrite Hf0, Hfile, Hg. reflexivity.
Qed.

(** Both ADDs for [c1]. *)
Lemma versions_agree_on_add_witness :
  ∃ st0,
    RainierGo.cmdAdd (Ref.world []) (Ref.args "c1" Ref.conf_br0) (init None)
      = (Ret None, st0) ∧
    hostInterfaces st0 = hostInterfaces st_added ∧
    file st0 = file st_added.
Proof.
  apply (versions_agree_on_add (Ref.world []) (Ref.args "c1" Ref.conf_br0) None).
  vm_compute. reflexivity.
Defined.

(** The earlier DEL once the configuration is decoded. *)
Lemma legacy_cmdDel_run W a f config :
  json_Unmarshal_config W (skel.StdinData a) = Val config →
  RainierGo.cmdDel W a (init f) =
    match go_index (loaded W f) (skel.ContainerID a) with
    | IString name =>
        match ovs_DeletePort W (PublicBridgeName config) name with
        | Some e =>
            (Ret (Some (Errorf "Failed to delete port %s from bridge %s. Error = %s"
                               [name; PublicBridgeName config; e])),
             {| hostInterfaces := loaded W f; file := f;
                trace := [EvReadFile HostInterfaceJson;
                          EvDeletePort (PublicBridgeName config) name;
                          EvPrintln ["%s %s"; PublicBridgeName config; name]] |})
        | None =>
            (Ret None,
             {| hostInterfaces := go_delete (loaded W f) (skel.ContainerID a);
                file := saved W (go_delete (loaded W f) (skel.ContainerID a)) f;
                trace := [EvReadFile HostInterfaceJson;
                          EvDeletePort (PublicBridgeName config) name]
                         ++ write_calls W (go_delete (loaded W f) (skel.ContainerID a)) f |})
        end
    | _ =>
        (Panic "interface conversion: interface {} is not string",
         {| hostInterfaces := loaded W f; file := f;
            trace := [EvReadFile HostInterfaceJson] |})
    end.
Proof.
  intros Hcfg. unfold RainierGo.cmdDel. rewrite Hcfg.
  unfold hostInterfaces_index, bind at 1 2 3.
  destruct (read_init W f) as [r ->]. cbn.
  destruct (go_index (loaded W f) (skel.ContainerID a)) as [|name| | | |]; try reflexivity.
  unfold deleteOvsPort. unfold_calls. cbn.
  destruct (ovs_DeletePort W (PublicBridgeName config) name); cbn; [reflexivity|].
  rewrite write_frame.
  destruct (write_returns W {| hostInterfaces := go_delete (loaded W f) (skel.ContainerID a);
                              file := f; trace := [] |}) as [r' ->].
  reflexivity.
Qed.

(** X23. For a container that has an entry, and a delegate teardown that
    succeeds, the DEL with IPAM does what the earlier DEL does, after one
    more call: same outcome (success, error or panic), same mapping, same
    state file, and the same calls after the delegate teardown. *)
Theorem versions_agree_on_del W a f config :
  json_Unmarshal_config W (skel.StdinData a) = Val config →
  ipam_ExecDel W (types.Type_ (types.ipam (NetConf config))) (skel.StdinData a) = None →
  go_index (loaded W f) (skel.ContainerID a) ≠ INil →
  fst (cmdDel W a (init f)) = fst (RainierGo.cmdDel W a (init f)) ∧
  hostInterfaces (snd (cmdDel W a (init f)))
    = hostInterfaces (snd (RainierGo.cmdDel W a (init f))) ∧
  file (snd (cmdDel W a (init f))) = file (snd (RainierGo.cmdDel W a (init f))) ∧
  trace (snd (cmdDel W a (init f)))
    = EvExecDel (types.Type_ (types.ipam (NetConf config))) (skel.StdinData a)
      :: trace (snd (RainierGo.cmdDel W a (init f))).
Proof.
  intros Hcfg Hdel Hent.
  rewrite (cmdDel_run W a f config Hcfg Hdel), (legacy_cmdDel_run W a f config Hcfg).
  cbv zeta.
  destruct (go_index (loaded W f) (skel.ContainerID a)) as [|name| | | |];
    try (repeat split; reflexivity); [congruence|].
  destruct (ovs_DeletePort W (PublicBridgeName config) name); repeat split; reflexivity.
Qed.

(** Both DELs for [c1] after its ADD. *)
Lemma versions_agree_on_del_witness :
  let W := Ref.world [] in
  let a := Ref.args "c1" Ref.conf_br0 in
  fst (cmdDel W a (init file_c1)) = fst (RainierGo.cmdDel W a (init file_c1)) ∧
  hostInterfaces (snd (cmdDel W a (init file_c1)))
    = hostInterfaces (snd (RainierGo.cmdDel W a (init file_c1))) ∧
  file (snd (cmdDel W a (init file_c1))) = file (snd (RainierGo.cmdDel W a (init file_c1))) ∧
  trace (snd (cmdDel W a (init file_c1)))
    = EvExecDel "host-local" Ref.conf_br0
      :: trace (snd (RainierGo.cmdDel W a (init file_c1))).
Proof.
  apply (versions_agree_on_del (Ref.world []) (Ref.args "c1" Ref.conf_br0) file_c1
           {| NetConf := Ref.netconf0; PublicBridgeName := "br0" |}).
  - vm_compute. reflexivity.
  - vm_compute. reflexivity.
  - vm_compute. discriminate.
Defined.

(** ** The switch wrappers *)

(** X5. [createOvsBr], [addOvsPort] and [deleteOvsPort], from any state: each
    makes exactly one call to the switch, with the names it was given, and
    leaves the store and the state file alone; it returns no error exactly
    when the switch call succeeded, and otherwise an error that keeps the
    names and the switch's text.  Only [deleteOvsPort] prints, and only when
    it fails. *)
Theorem switch_wrappers W st bridge port :
  (∃ r st',
     createOvsBr W bridge st = (Ret r, st') ∧
     hostInterfaces st' = hostInterfaces st ∧ file st' = file st ∧
     trace st' = trace st ++ [EvAddBridge bridge] ∧
     r = ((fun m => Errorf "Failed to add bridge %s. Error = %s" [bridge; m])
            <$> ovs_AddBridge W bridge)) ∧
  (∃ r st',
     addOvsPort W bridge port st = (Ret r, st') ∧
     hostInterfaces st' = hostInterfaces st ∧ file st' = file st ∧
     trace st' = trace st ++ [EvAddPort bridge port] ∧
     r = ((fun m => Errorf "Failed to add port %s to bridge %s. Error = %s"
                           [port; bridge; m])
            <$> ovs_AddPort W bridge port)) ∧
  (∃ r st',
     deleteOvsPort W bridge port st = (Ret r, st') ∧
     hostInterfaces st' = hostInterfaces st ∧ file st' = file st ∧
     trace st' = trace st ++ EvDeletePort bridge port
                          :: match r with
                             | Some _ => [EvPrintln ["%s %s"; bridge; port]]
                             | None => []
                             end ∧
     r = ((fun m => Errorf "Failed to delete port %s from bridge %s. Error = %s"
                           [port; bridge; m])
            <$> ovs_DeletePort W bridge port)).
Proof.
  destruct st as [g f tr]. unfold createOvsBr, addOvsPort, deleteOvsPort. unfold_calls.
  cbn. repeat split.
  - destruct (ovs_AddBridge W bridge); eexists _, _; repeat split.
  - destruct (ovs_AddPort W bridge port); eexists _, _; repeat split.
  - destruct (ovs_DeletePort W bridge port); eexists _, _; repeat split.
    cbn. rewrite <- app_assoc. reflexivity.
Qed.

(** ** Witnesses for the error classification and for src/rainier.go *)

(** ADD for [c1] when the delegate has no address to give. *)
Lemma cmdAdd_errors_witness :
  raised_before_persist (LibError FromExecAdd "no addresses available") ∨
  ∃ msg, LibError FromExecAdd "no addresses available" = LibError FromPrintResult msg.
Proof.
  eapply (cmdAdd_errors (Ref.world [Ref.BadExecAdd]) (Ref.args "c1" Ref.conf_br0) None).
  vm_compute. reflexivity.
Defined.

(** The earlier ADD for [c1] when the switch refuses the port. *)
Lemma legacy_cmdAdd_failure_leaves_store_witness :
  ∃ e st',
    RainierGo.cmdAdd (Ref.world [Ref.BadAddPort]) (Ref.args "c1" Ref.conf_br0) (init file_c0)
      = (Ret (Some e), st') ∧
    raised_before_persist e ∧
    file st' = file_c0 ∧
    hostInterfaces st' = Some ∅ ∧
    forallb (fun ev => negb (is_ReadFile ev || is_WriteFile ev)) (trace st') = true.
Proof.
  eexists _, _. split; [vm_compute; reflexivity|].
  apply (legacy_cmdAdd_failure_leaves_store (Ref.world [Ref.BadAddPort])
           (Ref.args "c1" Ref.conf_br0) file_c0).
  vm_compute. reflexivity.
Defined.

(** The earlier DEL for the unknown container [c99]. *)
Lemma legacy_cmdDel_absent_entry_panics_witness :
  RainierGo.cmdDel (Ref.world []) (Ref.args "c99" Ref.conf_br0) (init file_c1)
  = (Panic "interface conversion: interface {} is not string",
     {| hostInterfaces := Some {["c1" := IString "veth1f3a"]}; file := file_c1;
        trace := [EvReadFile HostInterfaceJson] |}).
Proof.
  refine (eq_trans (legacy_cmdDel_absent_entry_panics (Ref.world [])
            (Ref.args "c99" Ref.conf_br0) file_c1
            {| NetConf := Ref.netconf0; PublicBridgeName := "br0" |} _ _) _);
    vm_compute; reflexivity.
Defined.
